(** * FarmConnect Kenya: order, inventory and rating consistency

    A shallow embedding of the order routes ([routes/orders.js]), the
    product routes ([routes/products.js]), the approval route of the admin
    ([routes/admin.js]), the product, order and review schemas with their
    persistence hooks, and the cart of the front end, followed by the
    properties of the order processor, the order state machine and the
    rating aggregator.

    Conventions of the embedding:
    - a MongoDB collection keyed by [_id] is a [gmap ObjectId _]; the review
      collection is a list in insertion order, since the hooks fold over the
      result of [find];
    - a route handler is a function from the store to a response and a new
      store; a handler that awaits several store calls is also given as a
      step function, one awaited store call per step, so that two requests
      can be interleaved the way the event loop interleaves them;
    - [save] runs the validators of the schema before the [pre('save')]
      hooks of the schema, and the [post] hook of a query is called with
      the query as [this]: the order in which Mongoose runs them;
    - prices and ratings are exact rationals kept as the code computes them;
      the rating average is a [number], which adds the non-finite values a
      JavaScript division can produce. *)

From Stdlib Require Import ZArith QArith Qround String Ascii List Lia.
From stdpp Require Import base option list gmap strings.
From Stdlib Require Import Lqa.

Local Open Scope Z_scope.

(** ** Identifiers, numbers and responses *)

(** A MongoDB ObjectId (12 bytes); a malformed id is excluded by the type,
    as [isMongoId] excludes it in the validation chains. *)
Abbreviation ObjectId := N (only parsing).

(** JavaScript numbers that the rating hooks can produce: rationals, the two
    infinities and NaN.  A finite result of an operation is put in lowest
    terms, so that two stored averages are equal in the model exactly when
    they are the same value. *)
Inductive number : Type :=
| Num (q : Q)
| Infinity (negative : bool)
| NaN.

Definition Qneg (q : Q) : bool := (Qnum q <? 0)%Z.
Definition Qzero (q : Q) : bool := (Qnum q =? 0)%Z.

(** [x / y] on JavaScript numbers. *)
Definition ndiv (x y : number) : number :=
  match x, y with
  | NaN, _ | _, NaN => NaN
  | Infinity _, Infinity _ => NaN
  | Infinity s, Num q => Infinity (xorb s (Qneg q))
  | Num _, Infinity _ => Num 0
  | Num p, Num q =>
      if Qzero q then (if Qzero p then NaN else Infinity (Qneg p))
      else Num (Qred (p / q))
  end.

(** [x * y] on JavaScript numbers. *)
Definition nmul (x y : number) : number :=
  match x, y with
  | NaN, _ | _, NaN => NaN
  | Infinity s, Infinity t => Infinity (xorb s t)
  | Infinity s, Num q | Num q, Infinity s =>
      if Qzero q then NaN else Infinity (xorb s (Qneg q))
  | Num p, Num q => Num (Qred (p * q))
  end.

(** [Math.round]: the nearest integer, halves rounded up. *)
Definition Math_round (x : number) : number :=
  match x with
  | Num q => Num (inject_Z (Qfloor (q + (1 # 2))))
  | _ => x
  end.

Inductive Error : Type :=
| ValidationFailed          (* 400 "Validation failed" *)
| ProductUnavailable (productId : ObjectId)  (* 400 "Product ... is not available" *)
| InsufficientStock (productId : ObjectId)   (* 400 "Insufficient quantity for product" *)
| OrderNotFound             (* 404 "Order not found" *)
| Forbidden                 (* 403 "Access denied" *)
| InvalidTransition         (* 400 "Cannot change status from ... to ..." *)
| DuplicateReview           (* E11000 duplicate key on the review index *)
| ProductNotFound           (* 404 "Product not found" *)
| ServerError.              (* 500, the catch block of a handler *)

Inductive Result (A : Type) : Type :=
| Ok (a : A)
| Err (e : Error).
Arguments Ok {A} a.
Arguments Err {A} e.

Definition is_ok {A} (r : Result A) : bool :=
  match r with Ok _ => true | Err _ => false end.

(** ** Strings of the validation chains *)

(** [\s] restricted to the characters a byte string can hold. *)
Definition is_space (c : ascii) : bool :=
  let n := N_of_ascii c in
  ((9 <=? n) && (n <=? 13) || (n =? 32))%N.

Fixpoint ltrim (s : string) : string :=
  match s with
  | String c rest => if is_space c then ltrim rest else s
  | EmptyString => EmptyString
  end.

Fixpoint rtrim (s : string) : string :=
  match s with
  | String c rest =>
      match rtrim rest with
      | EmptyString => if is_space c then EmptyString else String c EmptyString
      | rest' => String c rest'
      end
  | EmptyString => EmptyString
  end.

(** The [trim()] sanitizer. *)
Definition trim (s : string) : string := rtrim (ltrim s).

(** [notEmpty()]. *)
Definition notEmpty (s : string) : bool :=
  match s with EmptyString => false | _ => true end.

Definition is_digit (c : ascii) : bool :=
  let n := N_of_ascii c in ((48 <=? n) && (n <=? 57))%N.

Fixpoint all_digits (s : string) : bool :=
  match s with
  | EmptyString => true
  | String c rest => is_digit c && all_digits rest
  end.

Fixpoint strip_prefix (p s : string) : option string :=
  match p, s with
  | EmptyString, _ => Some s
  | String a p', String b s' => if Ascii.eqb a b then strip_prefix p' s' else None
  | String _ _, EmptyString => None
  end.

Definition nine_digits (s : string) : bool :=
  all_digits s && (String.length s =? 9)%nat.

(** [matches(/^(\+254|0)[0-9]{9}$/)]. *)
Definition phone_ok (s : string) : bool :=
  match strip_prefix "+254" s with
  | Some rest => nine_digits rest
  | None => false
  end
  || match strip_prefix "0" s with
     | Some rest => nine_digits rest
     | None => false
     end.

(** ** Documents *)

Module Rating.
Record t : Type := mk { average : number; count : Z }.
End Rating.

(** The fields of [productSchema] that the order and review code reads or
    writes; the descriptive fields (name, images, tags, ...) are left out. *)
Module Product.
Record t : Type := mk {
  price : Q;
  quantity : Z;
  farmer : ObjectId;
  isAvailable : bool;
  isApproved : bool;
  rating : Rating.t;
  isActive : bool
}.

Definition set_quantity (q : Z) (p : t) : t :=
  mk (price p) q (farmer p) (isAvailable p) (isApproved p) (rating p) (isActive p).

Definition set_price (x : Q) (p : t) : t :=
  mk x (quantity p) (farmer p) (isAvailable p) (isApproved p) (rating p) (isActive p).

Definition set_isAvailable (b : bool) (p : t) : t :=
  mk (price p) (quantity p) (farmer p) b (isApproved p) (rating p) (isActive p).

Definition set_rating (r : Rating.t) (p : t) : t :=
  mk (price p) (quantity p) (farmer p) (isAvailable p) (isApproved p) r (isActive p).
End Product.

(** A line item of an order: [{ product, quantity, price, farmer }]. *)
Module Item.
Record t : Type := mk {
  product : ObjectId;
  quantity : Z;
  price : Q;
  farmer : ObjectId
}.
End Item.

Inductive Status : Type :=
| pending | confirmed | processing | shipped | delivered | cancelled.

Global Instance Status_eq_dec : EqDecision Status.
Proof. solve_decision. Defined.

Inductive PaymentStatus : Type :=
| pay_pending | paid | failed | refunded.

Module Address.
Record t : Type := mk {
  county : string;
  subCounty : string;
  ward : string;
  specificLocation : string;
  contactPhone : string
}.
End Address.

(** [orderSchema], the Order model: the fields that the routes read or
    write.  [paymentReference] is kept beside the store (see [World]);
    [deliveryDate], the [additionalNotes] of the address and the timestamps
    are left out.  A String path that is absent is the empty string: the
    [required] validator and the test [!this.orderNumber] of the save hook
    treat [undefined] and [''] alike, and so does [if (notes)]. *)
Module Order.
Record t : Type := mk {
  _id : ObjectId;
  orderNumber : string;
  buyer : ObjectId;
  items : list Item.t;
  totalAmount : Q;
  status : Status;
  paymentStatus : PaymentStatus;
  paymentMethod : string;
  shippingAddress : Address.t;
  deliveryNotes : string;
  farmerNotes : string;
  isActive : bool
}.

Definition set_status (s : Status) (o : t) : t :=
  mk (_id o) (orderNumber o) (buyer o) (items o) (totalAmount o) s
     (paymentStatus o) (paymentMethod o) (shippingAddress o)
     (deliveryNotes o) (farmerNotes o) (isActive o).

Definition set_deliveryNotes (n : string) (o : t) : t :=
  mk (_id o) (orderNumber o) (buyer o) (items o) (totalAmount o) (status o)
     (paymentStatus o) (paymentMethod o) (shippingAddress o)
     n (farmerNotes o) (isActive o).

Definition set_farmerNotes (n : string) (o : t) : t :=
  mk (_id o) (orderNumber o) (buyer o) (items o) (totalAmount o) (status o)
     (paymentStatus o) (paymentMethod o) (shippingAddress o)
     (deliveryNotes o) n (isActive o).

Definition set_orderNumber (n : string) (o : t) : t :=
  mk (_id o) n (buyer o) (items o) (totalAmount o) (status o)
     (paymentStatus o) (paymentMethod o) (shippingAddress o)
     (deliveryNotes o) (farmerNotes o) (isActive o).
End Order.

(** [reviewSchema]; [rating] is a Number between 1 and 5. *)
Module Review.
Record t : Type := mk {
  _id : ObjectId;
  product : ObjectId;
  buyer : ObjectId;
  order : ObjectId;
  rating : Q;
  isActive : bool
}.

Definition set_isActive (b : bool) (r : t) : t :=
  mk (_id r) (product r) (buyer r) (order r) (rating r) b.
End Review.

(** The three collections. *)
Record Store : Type := mkStore {
  products : gmap N Product.t;
  orders : gmap N Order.t;
  reviews : list Review.t
}.

Definition set_products (ps : gmap N Product.t) (st : Store) : Store :=
  mkStore ps (orders st) (reviews st).

Definition set_orders (os : gmap N Order.t) (st : Store) : Store :=
  mkStore (products st) os (reviews st).

Definition set_reviews (rs : list Review.t) (st : Store) : Store :=
  mkStore (products st) (orders st) rs.

(** ** Order model: the order number of the save hook *)

Definition digit (d : N) : ascii := ascii_of_N (48 + d).

(** The decimal digits of [n], least significant first. *)
Fixpoint digits_lsd (fuel : nat) (n : N) : list ascii :=
  match fuel with
  | O => []
  | S fuel' =>
      digit (n mod 10)
      :: (if (n <? 10)%N then [] else digits_lsd fuel' (n / 10)%N)
  end.

(** [n.toString()] for a natural number; a number has no more decimal
    digits than binary ones. *)
Definition toString (n : N) : list ascii :=
  rev (digits_lsd (S (N.to_nat (N.log2 n))) n).

(** [s.slice(-k)]: the last [k] characters, or all of [s] when it is
    shorter. *)
Definition slice_last (k : nat) (s : list ascii) : list ascii :=
  rev (firstn k (rev s)).

(** [s.padStart(k, c)]. *)
Definition padStart (k : nat) (c : ascii) (s : list ascii) : list ascii :=
  repeat c (k - length s) ++ s.

(** The template [`ORD-${timestamp.slice(-6)}-${random}`], where [now] is
    [Date.now()] and [random] is [Math.floor(Math.random() * 1000)]. *)
Definition generate_orderNumber (now random : N) : string :=
  string_of_list_ascii
    (list_ascii_of_string "ORD-" ++ slice_last 6 (toString now)
     ++ list_ascii_of_string "-" ++ padStart 3 "0"%char (toString random)).

(** [orderSchema.pre('save')]: the order number the document has after the
    hook. *)
Definition Order_pre_save (this_orderNumber : string) (now random : N) : string :=
  if notEmpty this_orderNumber then this_orderNumber
  else generate_orderNumber now random.

(** ** Order processor: [POST /api/orders] *)

Module ReqItem.
Record t : Type := mk { productId : ObjectId; quantity : Z }.
End ReqItem.

(** The request body; [deliveryNotes] may be absent. *)
Module OrderRequest.
Record t : Type := mk {
  items : list ReqItem.t;
  paymentMethod : string;
  shippingAddress : Address.t;
  deliveryNotes : option string
}.
End OrderRequest.

(** What a request draws from its environment: the [_id] that the driver
    gives its new document, and the values of [Date.now()] and of
    [Math.floor(Math.random() * 1000)] that the save hook reads. *)
Record Fresh : Type := mkFresh {
  new_id : ObjectId;
  date_now : N;
  math_random : N
}.

Definition isIn (s : string) (l : list string) : bool :=
  existsb (String.eqb s) l.

Definition paymentMethods : list string :=
  ["mpesa"; "cash"; "bank_transfer"; "other"]%string.

(** The validation chain of the route.  The sanitizers rewrite the body, so
    the handler sees the trimmed address fields. *)
Definition validate_order (req : OrderRequest.t) : option OrderRequest.t :=
  let a := OrderRequest.shippingAddress req in
  let a' := Address.mk (trim (Address.county a)) (trim (Address.subCounty a))
              (trim (Address.ward a)) (trim (Address.specificLocation a))
              (Address.contactPhone a) in
  if (1 <=? length (OrderRequest.items req))%nat
     && forallb (fun it => 1 <=? ReqItem.quantity it) (OrderRequest.items req)
     && isIn (OrderRequest.paymentMethod req) paymentMethods
     && notEmpty (Address.county a') && notEmpty (Address.subCounty a')
     && notEmpty (Address.ward a') && notEmpty (Address.specificLocation a')
     && phone_ok (Address.contactPhone a')
  then Some (OrderRequest.mk (OrderRequest.items req)
               (OrderRequest.paymentMethod req) a'
               (OrderRequest.deliveryNotes req))
  else None.

(** The body of the first loop for one requested item: [Product.findById],
    the availability test, the stock test, and the line item pushed. *)
Definition check_item (ps : gmap N Product.t) (item : ReqItem.t) : Result Item.t :=
  match ps !! ReqItem.productId item with
  | None => Err (ProductUnavailable (ReqItem.productId item))
  | Some product =>
      if negb (Product.isActive product) || negb (Product.isApproved product)
         || negb (Product.isAvailable product)
      then Err (ProductUnavailable (ReqItem.productId item))
      else if Product.quantity product <? ReqItem.quantity item
      then Err (InsufficientStock (ReqItem.productId item))
      else Ok (Item.mk (ReqItem.productId item) (ReqItem.quantity item)
                 (Product.price product) (Product.farmer product))
  end.

(** [itemTotal = product.price * item.quantity]. *)
Definition itemTotal (line : Item.t) : Q :=
  (Item.price line * inject_Z (Item.quantity line))%Q.

(** The first loop, with its two accumulators. *)
Fixpoint validate_items (ps : gmap N Product.t) (items : list ReqItem.t)
    (orderItems : list Item.t) (totalAmount : Q) : Result (list Item.t * Q) :=
  match items with
  | [] => Ok (orderItems, totalAmount)
  | item :: rest =>
      match check_item ps item with
      | Err e => Err e
      | Ok line =>
          validate_items ps rest (orderItems ++ [line])
            (totalAmount + itemTotal line)%Q
      end
  end.

(** The [trim: true] setters of the address paths. *)
Definition Address_trim (a : Address.t) : Address.t :=
  Address.mk (trim (Address.county a)) (trim (Address.subCounty a))
    (trim (Address.ward a)) (trim (Address.specificLocation a))
    (trim (Address.contactPhone a)).

(** [new Order({ buyer, items, totalAmount, paymentMethod, shippingAddress,
    deliveryNotes })]: the handler passes no [orderNumber], so the document
    has none; the defaults of the schema give the two statuses and
    [isActive], and its setters trim the address and the notes. *)
Definition new_Order (user : ObjectId) (fresh : Fresh) (req : OrderRequest.t)
    (orderItems : list Item.t) (totalAmount : Q) : Order.t :=
  Order.mk (new_id fresh) EmptyString user orderItems totalAmount
    pending pay_pending (OrderRequest.paymentMethod req)
    (Address_trim (OrderRequest.shippingAddress req))
    (default EmptyString (trim <$> OrderRequest.deliveryNotes req))
    EmptyString true.

(** The validators of [orderSchema] on the modelled paths: [required] (a
    String path must be present and non-empty), [min] on the numbers and
    [enum] on the payment method; the two statuses are in their [enum] by
    their types. *)
Definition Order_validate (o : Order.t) : bool :=
  let a := Order.shippingAddress o in
  notEmpty (Order.orderNumber o)
  && forallb (fun item => (1 <=? Item.quantity item)
                          && negb (Qneg (Item.price item))) (Order.items o)
  && negb (Qneg (Order.totalAmount o))
  && isIn (Order.paymentMethod o) paymentMethods
  && notEmpty (Address.county a) && notEmpty (Address.subCounty a)
  && notEmpty (Address.ward a) && notEmpty (Address.specificLocation a)
  && notEmpty (Address.contactPhone a).

Definition orderNumber_taken (n : string) (os : gmap N Order.t) : bool :=
  existsb (fun kv => String.eqb (Order.orderNumber (snd kv)) n) (map_to_list os).

(** The insert that [save] issues for a new document: it is refused when
    the [_id] or the unique [orderNumber] is already present. *)
Definition Order_insert (o : Order.t) (st : Store) : option Store :=
  match orders st !! Order._id o with
  | Some _ => None
  | None =>
      if orderNumber_taken (Order.orderNumber o) (orders st) then None
      else Some (set_orders (<[Order._id o := o]> (orders st)) st)
  end.

(** [order.save()] of a new document.  The validators run first, and a
    failing validator rejects the save before any [pre('save')] hook of the
    schema is called and before anything is written; then the save hook
    runs, and the document is inserted.  The result is the document as
    saved and the store, or [None] for a rejected save. *)
Definition Order_save (fresh : Fresh) (o : Order.t) (st : Store)
    : option (Order.t * Store) :=
  if negb (Order_validate o) then None
  else
    let o' := Order.set_orderNumber
                (Order_pre_save (Order.orderNumber o) (date_now fresh)
                   (math_random fresh)) o in
    match Order_insert o' st with
    | Some st' => Some (o', st')
    | None => None
    end.

(** [Product.findByIdAndUpdate(id, { $inc: { quantity: delta } })]: an
    unconditional increment, a no-op when the product does not exist. *)
Definition inc_quantity (id : ObjectId) (delta : Z) (ps : gmap N Product.t)
    : gmap N Product.t :=
  alter (fun p => Product.set_quantity (Product.quantity p + delta) p) id ps.

(** The second loop. *)
Definition decrement_all (orderItems : list Item.t) (ps : gmap N Product.t)
    : gmap N Product.t :=
  fold_left (fun ps item => inc_quantity (Item.product item) (- Item.quantity item) ps)
    orderItems ps.

(** The handler run from start to end without any other request in between.
    A rejected [save] is caught by the [catch] block of the handler.  The
    response carries the document found by the final [Order.findById]. *)
Definition createOrder (user : ObjectId) (fresh : Fresh) (req : OrderRequest.t)
    (st : Store) : Result (option Order.t) * Store :=
  match validate_order req with
  | None => (Err ValidationFailed, st)
  | Some req =>
      match validate_items (products st) (OrderRequest.items req) [] 0%Q with
      | Err e => (Err e, st)
      | Ok (orderItems, totalAmount) =>
          let order := new_Order user fresh req orderItems totalAmount in
          match Order_save fresh order st with
          | None => (Err ServerError, st)
          | Some (order, st1) =>
              let st2 := set_products (decrement_all orderItems (products st1)) st1 in
              (Ok (orders st2 !! Order._id order), st2)
          end
      end
  end.

(** *** The same handler, one awaited store call per step *)

Record Ctx : Type := mkCtx {
  ctx_user : ObjectId;
  ctx_fresh : Fresh;
  ctx_req : OrderRequest.t
}.

(** Where a request stands: in the first loop, before the [findById] of the
    first of [remaining], or, with no item remaining, before the [save] of
    the document built from the accumulators; in the second loop; or
    answered. *)
Inductive Handler : Type :=
| Validating (c : Ctx) (remaining : list ReqItem.t)
    (orderItems : list Item.t) (totalAmount : Q)
| Decrementing (order : Order.t) (remaining : list Item.t)
| Responded (r : Result (option Order.t)).

(** The synchronous prefix of the handler, up to the first [await]. *)
Definition createOrder_start (user : ObjectId) (fresh : Fresh)
    (req : OrderRequest.t) : Handler :=
  match validate_order req with
  | None => Responded (Err ValidationFailed)
  | Some req => Validating (mkCtx user fresh req) (OrderRequest.items req) [] 0%Q
  end.

(** One awaited store call and the synchronous code that follows it. *)
Definition createOrder_step (h : Handler) (st : Store) : Handler * Store :=
  match h with
  | Validating c (item :: rest) orderItems totalAmount =>
      match check_item (products st) item with
      | Err e => (Responded (Err e), st)
      | Ok line =>
          (Validating c rest (orderItems ++ [line]) (totalAmount + itemTotal line)%Q, st)
      end
  | Validating c [] orderItems totalAmount =>
      let order := new_Order (ctx_user c) (ctx_fresh c) (ctx_req c)
                     orderItems totalAmount in
      match Order_save (ctx_fresh c) order st with
      | None => (Responded (Err ServerError), st)
      | Some (order, st1) => (Decrementing order orderItems, st1)
      end
  | Decrementing order (item :: rest) =>
      (Decrementing order rest,
       set_products (inc_quantity (Item.product item) (- Item.quantity item)
                       (products st)) st)
  | Decrementing order [] =>
      (Responded (Ok (orders st !! Order._id order)), st)
  | Responded r => (Responded r, st)
  end.

(** A handler running alone for [n] steps. *)
Fixpoint run (n : nat) (h : Handler) (st : Store) : Handler * Store :=
  match n with
  | O => (h, st)
  | S n' => let '(h', st') := createOrder_step h st in run n' h' st'
  end.

(** How an awaited store call ends: it resolves; or it rejects (a lost
    connection, a time-out), before the store has applied the call or after.
    A rejection is thrown into the [catch] block of the handler, which
    answers 500 and undoes nothing. *)
Inductive Outcome : Type := resolves | rejects_before | rejects_after.

Definition createOrder_step_with (outcome : Outcome) (h : Handler) (st : Store)
    : Handler * Store :=
  match h, outcome with
  | Responded _, _ => (h, st)
  | _, resolves => createOrder_step h st
  | _, rejects_before => (Responded (Err ServerError), st)
  | _, rejects_after => (Responded (Err ServerError), snd (createOrder_step h st))
  end.

(** A handler running alone, its store calls ending as [outcomes] says. *)
Fixpoint run_with (outcomes : list Outcome) (h : Handler) (st : Store)
    : Handler * Store :=
  match outcomes with
  | [] => (h, st)
  | outcome :: rest =>
      let '(h', st') := createOrder_step_with outcome h st in run_with rest h' st'
  end.

(** Two requests in flight; the schedule says whose awaited call completes
    next ([true]: the first request). *)
Definition step2 (cfg : Handler * Handler * Store) (first : bool)
    : Handler * Handler * Store :=
  let '(h1, h2, st) := cfg in
  if first then let '(h1', st') := createOrder_step h1 st in (h1', h2, st')
  else let '(h2', st') := createOrder_step h2 st in (h1, h2', st').

Definition run2 (schedule : list bool) (cfg : Handler * Handler * Store)
    : Handler * Handler * Store :=
  fold_left step2 schedule cfg.

(** The store after a sequence of calls, each run from start to end. *)
Definition createOrder_calls (calls : list (ObjectId * Fresh * OrderRequest.t))
    (st : Store) : Store :=
  fold_left (fun st call =>
               let '(user, fresh, req) := call in
               snd (createOrder user fresh req st))
    calls st.

(** ** Product price update: [PUT /api/products/:id] *)

Module ProductUpdate.
Record t : Type := mk {
  price : option Q;
  quantity : option Z;
  isAvailable : option bool
}.
End ProductUpdate.

Definition apply_update (u : ProductUpdate.t) (p : Product.t) : Product.t :=
  let p1 := match ProductUpdate.price u with
            | Some x => Product.set_price x p | None => p end in
  let p2 := match ProductUpdate.quantity u with
            | Some q => Product.set_quantity q p1 | None => p1 end in
  match ProductUpdate.isAvailable u with
  | Some b => Product.set_isAvailable b p2 | None => p2 end.

Definition validate_update (u : ProductUpdate.t) : bool :=
  match ProductUpdate.price u with
  | Some x => negb (Qneg x) | None => true end
  && match ProductUpdate.quantity u with
     | Some q => 0 <=? q | None => true end.

Definition updateProduct (user id : ObjectId) (u : ProductUpdate.t) (st : Store)
    : Result (option Product.t) * Store :=
  if negb (validate_update u) then (Err ValidationFailed, st)
  else match products st !! id with
       | None => (Err ProductNotFound, st)
       | Some product =>
           if negb (Product.farmer product =? user)%N then (Err Forbidden, st)
           else let ps := alter (apply_update u) id (products st) in
                (Ok (ps !! id), set_products ps st)
       end.

(** ** Order state machine: [PUT /api/orders/:id/status] *)

Definition validTransitions (s : Status) : list Status :=
  match s with
  | pending => [confirmed; cancelled]
  | confirmed => [processing; cancelled]
  | processing => [shipped; cancelled]
  | shipped => [delivered]
  | delivered => []
  | cancelled => []
  end.

(** [Array.prototype.includes] on statuses. *)
Definition includes (l : list Status) (s : Status) : bool :=
  existsb (fun x => bool_decide (x = s)) l.

(** [body("notes").optional().trim().isLength({ max: 500 })]: the notes the
    handler sees, or [None] when the chain rejects them. *)
Definition validate_notes (notes : option string) : option (option string) :=
  match notes with
  | None => Some None
  | Some n =>
      let n' := trim n in
      if (String.length n' <=? 500)%nat then Some (Some n') else None
  end.

(** [order.buyer.toString() === req.user._id.toString()]. *)
Definition isBuyer (user : ObjectId) (order : Order.t) : bool :=
  (Order.buyer order =? user)%N.

(** [order.items.some(item => item.farmer._id.toString() === ...)].  The
    order was loaded with [populate("items.farmer")]; no route deletes a
    user document, so each populated farmer is the document whose [_id] is
    the reference stored in the line item. *)
Definition isFarmer (user : ObjectId) (order : Order.t) : bool :=
  existsb (fun item => (Item.farmer item =? user)%N) (Order.items order).

(** [if (notes) { if (isFarmer) farmerNotes = notes else deliveryNotes = notes }];
    an absent or empty string is falsy. *)
Definition attach_notes (notes : option string) (farmer : bool) (o : Order.t)
    : Order.t :=
  match notes with
  | Some n =>
      if notEmpty n
      then (if farmer then Order.set_farmerNotes n o else Order.set_deliveryNotes n o)
      else o
  | None => o
  end.

(** The status is one of the six values of the [isIn] check by its type. *)
Definition updateStatus (user id : ObjectId) (status : Status)
    (notes : option string) (st : Store) : Result Order.t * Store :=
  match validate_notes notes with
  | None => (Err ValidationFailed, st)
  | Some notes =>
      match orders st !! id with
      | None => (Err OrderNotFound, st)
      | Some order =>
          if negb (Order.isActive order) then (Err OrderNotFound, st)
          else if negb (isBuyer user order) && negb (isFarmer user order)
          then (Err Forbidden, st)
          else if negb (includes (validTransitions (Order.status order)) status)
          then (Err InvalidTransition, st)
          else
            let order' := attach_notes notes (isFarmer user order)
                            (Order.set_status status order) in
            (Ok order', set_orders (<[id := order']> (orders st)) st)
      end
  end.

(** ** Rating aggregator: the hooks of the Review model *)

(** [Review.find({ product, isActive: true })]. *)
Definition active_reviews (product : ObjectId) (rs : list Review.t) : list Review.t :=
  List.filter (fun r => (Review.product r =? product)%N && Review.isActive r) rs.

(** [reviews.reduce((sum, review) => sum + review.rating, 0)]. *)
Definition totalRating (rs : list Review.t) : Q :=
  fold_left (fun sum review => (sum + Review.rating review)%Q) rs 0%Q.

Definition length_number (rs : list Review.t) : number :=
  Num (inject_Z (Z.of_nat (length rs))).

(** The two assignments shared by both hooks:
    [average = Math.round(averageRating * 10) / 10; count = reviews.length]. *)
Definition averaged (rs : list Review.t) : Rating.t :=
  let averageRating := ndiv (Num (totalRating rs)) (length_number rs) in
  Rating.mk (ndiv (Math_round (nmul averageRating (Num 10))) (Num 10))
    (Z.of_nat (length rs)).

Definition write_rating (product : ObjectId) (r : Rating.t) (st : Store) : Store :=
  set_products (alter (Product.set_rating r) product (products st)) st.

(** [reviewSchema.post('save')]. *)
Definition post_save (this_product : ObjectId) (st : Store) : Store :=
  match products st !! this_product with
  | Some _ =>
      write_rating this_product
        (averaged (active_reviews this_product (reviews st))) st
  | None => st
  end.

(** [reviewSchema.post('findOneAndDelete')].  This is query middleware:
    it is called with the query as [this], and a query has no [product], so
    [this.product] is [undefined] and [Product.findById(undefined)] finds
    no document.  [this_product] is the value of [this.product]: [None]
    whenever [findOneAndDelete] calls the hook. *)
Definition post_findOneAndDelete (this_product : option ObjectId) (st : Store)
    : Store :=
  match this_product with
  | None => st
  | Some this_product =>
      match products st !! this_product with
      | Some _ =>
          let rs := active_reviews this_product (reviews st) in
          write_rating this_product
            (if (0 <? length rs)%nat then averaged rs else Rating.mk (Num 0) 0) st
      | None => st
      end
  end.

Definition same_pair (a b : Review.t) : bool :=
  (Review.product a =? Review.product b)%N && (Review.buyer a =? Review.buyer b)%N.

Definition same_id (id : ObjectId) (r : Review.t) : bool :=
  (Review._id r =? id)%N.

(** The schema validators of [rating]: [min: 1, max: 5]. *)
Definition rating_in_range (x : Q) : bool :=
  Qle_bool 1 x && Qle_bool x 5.

(** The repository has no route for reviews; a review is committed, soft
    deleted and removed through the persistence calls that run the hooks.

    Saving a new review document: schema validation, the insert under the
    [_id] index and the unique [{ product, buyer }] index, then the save
    hook.  The hook only runs after the insert went through. *)
Definition submitReview (r : Review.t) (st : Store) : Result Review.t * Store :=
  if negb (rating_in_range (Review.rating r)) then (Err ValidationFailed, st)
  else if existsb (same_id (Review._id r)) (reviews st) then (Err ServerError, st)
  else if existsb (same_pair r) (reviews st) then (Err DuplicateReview, st)
  else (Ok r, post_save (Review.product r) (set_reviews (reviews st ++ [r]) st)).

(** The collection with the first document whose [_id] is that of [r]
    replaced by [r]: the update that [save] issues for an existing
    document. *)
Fixpoint replace_review (r : Review.t) (rs : list Review.t) : list Review.t :=
  match rs with
  | [] => []
  | x :: rest =>
      if same_id (Review._id r) x then r :: rest else x :: replace_review r rest
  end.

(** Soft delete: [review.isActive = false; review.save()], which runs the
    save hook. *)
Definition deactivateReview (id : ObjectId) (st : Store) : Store :=
  match List.find (same_id id) (reviews st) with
  | Some review =>
      let review' := Review.set_isActive false review in
      post_save (Review.product review')
        (set_reviews (replace_review review' (reviews st)) st)
  | None => st
  end.

(** The collection without the first document whose [_id] is [id]. *)
Fixpoint remove_first (id : ObjectId) (rs : list Review.t) : list Review.t :=
  match rs with
  | [] => []
  | x :: rest => if same_id id x then rest else x :: remove_first id rest
  end.

(** Physical delete: [Review.findOneAndDelete({ _id })] and its hook, which
    is handed the query. *)
Definition removeReview (id : ObjectId) (st : Store) : Store :=
  match List.find (same_id id) (reviews st) with
  | Some review =>
      post_findOneAndDelete None (set_reviews (remove_first id (reviews st)) st)
  | None => st
  end.

(** ** Definitions used to state the properties *)


(** The number of units of product [id] that the lines ask for in total. *)
Definition requested (id : ObjectId) (lines : list Item.t) : Z :=
  fold_right (fun line acc =>
                if (Item.product line =? id)%N then Item.quantity line + acc else acc)
    0 lines.

(** Every product has a non-negative quantity. *)
Definition stock_nonneg (ps : gmap N Product.t) : Prop :=
  forall id product, ps !! id = Some product -> 0 <= Product.quantity product.

(** The transition table of the specification, as a list of edges. *)
Definition transition_table : list (Status * Status) :=
  [ (pending, confirmed); (pending, cancelled);
    (confirmed, processing); (confirmed, cancelled);
    (processing, shipped); (processing, cancelled);
    (shipped, delivered) ].

(** The aggregate of a set of active reviews as the specification defines
    it: the rounded mean and the count, and [{0, 0}] for no review. *)
Definition aggregate (rs : list Review.t) : Rating.t :=
  match rs with
  | [] => Rating.mk (Num 0) 0
  | _ => averaged rs
  end.

Definition rating_of (id : ObjectId) (st : Store) : option Rating.t :=
  Product.rating <$> products st !! id.

(** The [(product, buyer)] pairs of the review collection. *)
Definition pairs (rs : list Review.t) : list (N * N) :=
  List.map (fun r => (Review.product r, Review.buyer r)) rs.

(** A handler that has written nothing: it is in the first loop or at the
    [save], or it has answered with an error. *)
Definition before_save (h : Handler) : Prop :=
  match h with
  | Validating _ _ _ _ => True
  | Decrementing _ _ => False
  | Responded r => is_ok r = false
  end.

(** The awaited store calls that a handler has before it at most. *)
Definition steps_left (h : Handler) : nat :=
  match h with
  | Validating _ remaining _ _ => S (length remaining)
  | Decrementing _ remaining => S (length remaining)
  | Responded _ => 0
  end.

(** The number of steps that a schedule gives to one of two requests. *)
Definition turns (first : bool) (schedule : list bool) : nat :=
  length (List.filter (Bool.eqb first) schedule).

(** *** Sample data *)

Definition sample_address : Address.t :=
  Address.mk "Nairobi" "Westlands" "Parklands" "123 Main Street" "+254700123456".

(** A product of farmer 7 with [quantity] units at price 80. *)
Definition sample_product (quantity : Z) : Product.t :=
  Product.mk (80 # 1) quantity 7%N true true (Rating.mk (Num 0) 0) true.

Definition sample_store (quantity : Z) : Store :=
  mkStore {[ 1%N := sample_product quantity ]} ∅ [].

Definition sample_request (quantities : list Z) : OrderRequest.t :=
  OrderRequest.mk (List.map (ReqItem.mk 1%N) quantities) "mpesa" sample_address None.

Definition fresh_a : Fresh := mkFresh 100%N 1730505600123 7.
Definition fresh_b : Fresh := mkFresh 101%N 1730505600124 8.

(** A stored order of [buyer] for three units of product 1. *)
Definition stored_order (buyer : ObjectId) : Order.t :=
  Order.mk 100%N "ORD-600123-007" buyer [Item.mk 1%N 3 (80 # 1) 7%N]
    (0 + (80 # 1) * inject_Z 3)%Q pending pay_pending "mpesa" sample_address
    EmptyString EmptyString true.

(** An order of buyer 50, and a store that holds it beside the product,
    which has seven units left. *)
Definition sample_order : Order.t := stored_order 50%N.

Definition ordered_store : Store :=
  mkStore {[ 1%N := sample_product 7 ]} {[ 100%N := sample_order ]} [].

(** The same for an order that farmer 7 placed for the farmer's own
    product. *)
Definition own_order : Order.t := stored_order 7%N.

Definition own_order_store : Store :=
  mkStore {[ 1%N := sample_product 7 ]} {[ 100%N := own_order ]} [].

Definition sample_review (id buyer : ObjectId) (rating : Q) : Review.t :=
  Review.mk id 1%N buyer 100%N rating true.

(** Two requests for one unit each, by buyers 50 and 51, at their first
    [await]. *)
Definition request_a : Handler :=
  createOrder_start 50%N fresh_a (sample_request [1]).

Definition request_b : Handler :=
  createOrder_start 51%N fresh_b (sample_request [1]).

(** A review of buyer 51 with rating 3. *)
Definition second_review : Review.t := sample_review 201%N 51%N 3.

(** The store after buyer 50 reviewed the product with rating 5. *)
Definition reviewed_store : Store :=
  snd (submitReview (sample_review 200%N 50%N 5) ordered_store).

(** The operations on the review collection. *)
Inductive ReviewOp : Type :=
| Submit (r : Review.t)
| Deactivate (id : ObjectId)
| Remove (id : ObjectId).

Definition apply_op (st : Store) (op : ReviewOp) : Store :=
  match op with
  | Submit r => snd (submitReview r st)
  | Deactivate id => deactivateReview id st
  | Remove id => removeReview id st
  end.

(** * Further code: definitions *)

(** ** Order model: [calculateTotal] *)

Definition Order_set_totalAmount (x : Q) (o : Order.t) : Order.t :=
  Order.mk (Order._id o) (Order.orderNumber o) (Order.buyer o) (Order.items o) x
    (Order.status o) (Order.paymentStatus o) (Order.paymentMethod o)
    (Order.shippingAddress o) (Order.deliveryNotes o) (Order.farmerNotes o)
    (Order.isActive o).

Definition Order_set_paymentStatus (p : PaymentStatus) (o : Order.t) : Order.t :=
  Order.mk (Order._id o) (Order.orderNumber o) (Order.buyer o) (Order.items o)
    (Order.totalAmount o) (Order.status o) p (Order.paymentMethod o)
    (Order.shippingAddress o) (Order.deliveryNotes o) (Order.farmerNotes o)
    (Order.isActive o).

(** [orderSchema.methods.calculateTotal]: assigns [this.totalAmount] and
    returns it; the result is the value and the document after the call. *)
Definition calculateTotal (this : Order.t) : Q * Order.t :=
  let total :=
    fold_left (fun total item =>
                 (total + Item.price item * inject_Z (Item.quantity item))%Q)
      (Order.items this) 0%Q in
  (total, Order_set_totalAmount total this).

(** ** Order routes: [GET /api/orders/:id] and [POST /api/orders/:id/payment] *)

(** [Order.findOne({ _id, buyer: req.user._id, isActive: true })]. *)
Definition find_own_order (user id : ObjectId) (st : Store) : option Order.t :=
  match orders st !! id with
  | Some order =>
      if (Order.buyer order =? user)%N && Order.isActive order
      then Some order else None
  | None => None
  end.


(** The order record above leaves [paymentReference] out; the payment route
    writes it, so the field is kept beside the store, one entry per order
    that has a reference (an order without an entry has the default, the
    empty string). *)
Record World : Type := mkWorld {
  store : Store;
  paymentReferences : gmap N string
}.

(** [body("paymentReference").optional().trim().notEmpty()]. *)
Definition validate_reference (r : option string) : option (option string) :=
  match r with
  | None => Some None
  | Some s => if notEmpty (trim s) then Some (Some (trim s)) else None
  end.

(** [POST /api/orders/:id/payment]; the payment status is one of the four
    values of the [isIn] check by its type. *)
Definition setPaymentStatus (user id : ObjectId) (paymentStatus : PaymentStatus)
    (paymentReference : option string) (w : World) : Result Order.t * World :=
  match validate_reference paymentReference with
  | None => (Err ValidationFailed, w)
  | Some paymentReference =>
      match find_own_order user id (store w) with
      | None => (Err OrderNotFound, w)
      | Some order =>
          let order' := Order_set_paymentStatus paymentStatus order in
          let refs :=
            match paymentReference with
            | Some r => if notEmpty r then <[id := r]> (paymentReferences w)
                        else paymentReferences w
            | None => paymentReferences w
            end in
          (Ok order',
           mkWorld (set_orders (<[id := order']> (orders (store w))) (store w)) refs)
      end
  end.

(** ** Product routes: create, soft delete, and the approval of the admin *)

Definition Product_set_isActive (b : bool) (p : Product.t) : Product.t :=
  Product.mk (Product.price p) (Product.quantity p) (Product.farmer p)
    (Product.isAvailable p) (Product.isApproved p) (Product.rating p) b.

Definition Product_set_isApproved (b : bool) (p : Product.t) : Product.t :=
  Product.mk (Product.price p) (Product.quantity p) (Product.farmer p)
    (Product.isAvailable p) b (Product.rating p) (Product.isActive p).

(** The body of [POST /api/products] and the number of uploaded files;
    [price] and [quantity] are the numbers that [parseFloat] and [parseInt]
    give for strings that pass [isFloat] and [isInt]. *)
Module ProductRequest.
Record t : Type := mk {
  name : string;
  description : string;
  category : string;
  subcategory : string;
  price : Q;
  unit : string;
  quantity : Z;
  files : nat
}.
End ProductRequest.

Definition categories : list string :=
  ["livestock"; "poultry"; "dairy"; "vegetables"; "fruits";
   "cereals"; "legumes"; "herbs"; "seeds"; "other"]%string.

Definition units : list string :=
  ["kg"; "piece"; "dozen"; "litre"; "bag"; "bunch"; "head"; "other"]%string.

(** [isLength({ min, max })]. *)
Definition isLength (min max : nat) (s : string) : bool :=
  ((min <=? String.length s) && (String.length s <=? max))%nat.

Definition validate_product (req : ProductRequest.t) : bool :=
  isLength 3 100 (trim (ProductRequest.name req))
  && isLength 10 1000 (trim (ProductRequest.description req))
  && isIn (ProductRequest.category req) categories
  && notEmpty (trim (ProductRequest.subcategory req))
  && negb (Qneg (ProductRequest.price req))
  && isIn (ProductRequest.unit req) units
  && (0 <=? ProductRequest.quantity req).

(** [POST /api/products], after the middleware that admits approved farmers
    only; [new_id] is the [_id] of the new document.  The schema defaults
    make the product available, not approved, unrated and active. *)
Definition createProduct (user new_id : ObjectId) (req : ProductRequest.t)
    (st : Store) : Result Product.t * Store :=
  if negb (validate_product req) then (Err ValidationFailed, st)
  else if (ProductRequest.files req =? 0)%nat then (Err ValidationFailed, st)
  else
    let product := Product.mk (ProductRequest.price req)
                     (ProductRequest.quantity req) user true false
                     (Rating.mk (Num 0) 0) true in
    match products st !! new_id with
    | Some _ => (Err ServerError, st)
    | None => (Ok product, set_products (<[new_id := product]> (products st)) st)
    end.

(** [DELETE /api/products/:id]: a soft delete by the owner. *)
Definition deleteProduct (user id : ObjectId) (st : Store) : Result unit * Store :=
  match products st !! id with
  | None => (Err ProductNotFound, st)
  | Some product =>
      if negb (Product.farmer product =? user)%N then (Err Forbidden, st)
      else (Ok tt,
            set_products (<[id := Product_set_isActive false product]> (products st)) st)
  end.

Inductive Action : Type := approve | reject.

(** [PUT /api/admin/products/:id/approve], after the middleware that admits
    admins only.  Approval sets [isApproved]; rejection clears [isActive]. *)
Definition approveProduct (id : ObjectId) (action : Action)
    (notes : option string) (st : Store) : Result Product.t * Store :=
  match validate_notes notes with
  | None => (Err ValidationFailed, st)
  | Some _ =>
      match products st !! id with
      | None => (Err ProductNotFound, st)
      | Some product =>
          let product' :=
            match action with
            | approve => Product_set_isApproved true product
            | reject => Product_set_isActive false product
            end in
          (Ok product', set_products (<[id := product']> (products st)) st)
      end
  end.

(** ** Requests against the store, one after the other *)

Inductive Request : Type :=
| CreateOrder (user : ObjectId) (fresh : Fresh) (req : OrderRequest.t)
| UpdateStatus (user id : ObjectId) (status : Status) (notes : option string)
| SetPaymentStatus (user id : ObjectId) (paymentStatus : PaymentStatus)
    (paymentReference : option string)
| CreateProduct (user new_id : ObjectId) (req : ProductRequest.t)
| UpdateProduct (user id : ObjectId) (u : ProductUpdate.t)
| DeleteProduct (user id : ObjectId)
| ApproveProduct (id : ObjectId) (action : Action) (notes : option string)
| ReviewRequest (op : ReviewOp).

Definition with_store (w : World) (st : Store) : World :=
  mkWorld st (paymentReferences w).

(** The world after one request has been served. *)
Definition serve (w : World) (r : Request) : World :=
  match r with
  | CreateOrder user fresh req =>
      with_store w (snd (createOrder user fresh req (store w)))
  | UpdateStatus user id status notes =>
      with_store w (snd (updateStatus user id status notes (store w)))
  | SetPaymentStatus user id paymentStatus paymentReference =>
      snd (setPaymentStatus user id paymentStatus paymentReference w)
  | CreateProduct user new_id req =>
      with_store w (snd (createProduct user new_id req (store w)))
  | UpdateProduct user id u =>
      with_store w (snd (updateProduct user id u (store w)))
  | DeleteProduct user id =>
      with_store w (snd (deleteProduct user id (store w)))
  | ApproveProduct id action notes =>
      with_store w (snd (approveProduct id action notes (store w)))
  | ReviewRequest op => with_store w (apply_op (store w) op)
  end.

Definition serve_all (requests : list Request) (w : World) : World :=
  fold_left serve requests w.

(** ** The status handler, one awaited store call per step *)

(** Where a status update stands: before its [findById]; before the [save]
    of the document it loaded, with the assignments made; or answered. *)
Inductive StatusHandler : Type :=
| Finding (user id : ObjectId) (status : Status) (notes : option string)
| Saving (id : ObjectId) (loaded order : Order.t)
| Answered (r : Result Order.t).

(** The synchronous prefix of the handler. *)
Definition updateStatus_start (user id : ObjectId) (status : Status)
    (notes : option string) : StatusHandler :=
  match validate_notes notes with
  | None => Answered (Err ValidationFailed)
  | Some notes => Finding user id status notes
  end.

(** The update that [save] sends for a loaded document: a [$set] of the
    paths whose value differs from the value that was loaded, applied to
    the document as it is stored at that time.  These paths carry no
    version check. *)
Definition save_modified (loaded order stored : Order.t) : Order.t :=
  let s1 := if bool_decide (Order.status order = Order.status loaded) then stored
            else Order.set_status (Order.status order) stored in
  let s2 := if String.eqb (Order.farmerNotes order) (Order.farmerNotes loaded)
            then s1 else Order.set_farmerNotes (Order.farmerNotes order) s1 in
  if String.eqb (Order.deliveryNotes order) (Order.deliveryNotes loaded)
  then s2 else Order.set_deliveryNotes (Order.deliveryNotes order) s2.

(** One awaited store call and the synchronous code that follows it.  The
    [save] validates the document and is rejected when the document is no
    longer stored. *)
Definition updateStatus_step (h : StatusHandler) (st : Store)
    : StatusHandler * Store :=
  match h with
  | Finding user id status notes =>
      match orders st !! id with
      | None => (Answered (Err OrderNotFound), st)
      | Some order =>
          if negb (Order.isActive order) then (Answered (Err OrderNotFound), st)
          else if negb (isBuyer user order) && negb (isFarmer user order)
          then (Answered (Err Forbidden), st)
          else if negb (includes (validTransitions (Order.status order)) status)
          then (Answered (Err InvalidTransition), st)
          else
            (Saving id order
               (attach_notes notes (isFarmer user order)
                  (Order.set_status status order)), st)
      end
  | Saving id loaded order =>
      if negb (Order_validate order) then (Answered (Err ServerError), st)
      else
        match orders st !! id with
        | None => (Answered (Err ServerError), st)
        | Some stored =>
            (Answered (Ok order),
             set_orders (<[id := save_modified loaded order stored]> (orders st)) st)
        end
  | Answered r => (Answered r, st)
  end.

(** A status update running alone for [n] steps. *)
Fixpoint run_status (n : nat) (h : StatusHandler) (st : Store)
    : StatusHandler * Store :=
  match n with
  | O => (h, st)
  | S n' => let '(h', st') := updateStatus_step h st in run_status n' h' st'
  end.

(** Two status updates in flight; the schedule says whose awaited call
    completes next ([true]: the first request). *)
Definition status_step2 (cfg : StatusHandler * StatusHandler * Store)
    (first : bool) : StatusHandler * StatusHandler * Store :=
  let '(h1, h2, st) := cfg in
  if first then let '(h1', st') := updateStatus_step h1 st in (h1', h2, st')
  else let '(h2', st') := updateStatus_step h2 st in (h1, h2', st').

Definition run_status2 (schedule : list bool)
    (cfg : StatusHandler * StatusHandler * Store)
    : StatusHandler * StatusHandler * Store :=
  fold_left status_step2 schedule cfg.

(** ** Product listing: the paging of [GET /api/products] *)

Module Pagination.
Record t : Type := mk {
  currentPage : Z;
  totalPages : Z;
  totalProducts : Z;
  hasNext : bool;
  hasPrev : bool
}.
End Pagination.

(** [Math.ceil(a / b)] for integers, in exact arithmetic. *)
Definition Math_ceil_div (a b : Z) : Z := - ((- a) / b).

(** [query("page").optional().isInt({ min: 1 })] and
    [query("limit").optional().isInt({ min: 1, max: 50 })], with the
    defaults [page = 1] and [limit = 12] of the handler. *)
Definition validate_paging (page limit : option Z) : option (Z * Z) :=
  let page_ok := match page with Some p => 1 <=? p | None => true end in
  let limit_ok := match limit with
                  | Some l => (1 <=? l) && (l <=? 50) | None => true end in
  if page_ok && limit_ok then Some (default 1 page, default 12 limit) else None.

(** The paging of the handler.  [matching] is what
    [Product.find(filter).sort(sort)] yields before [skip] and [limit]; the
    count of [countDocuments(filter)] is its length. *)
Definition listProducts {A : Type} (page limit : option Z) (matching : list A)
    : Result (list A * Pagination.t) :=
  match validate_paging page limit with
  | None => Err ValidationFailed
  | Some (page, limit) =>
      let skip := (page - 1) * limit in
      let products := firstn (Z.to_nat limit) (skipn (Z.to_nat skip) matching) in
      let totalProducts := Z.of_nat (length matching) in
      let totalPages := Math_ceil_div totalProducts limit in
      Ok (products,
          Pagination.mk page totalPages totalProducts
            (page <? totalPages) (1 <? page))
  end.

(** ** Shopping cart of the front end *)

Module CartItem.
Record t : Type := mk {
  productId : string;
  productName : string;
  price : Q;
  quantity : Z
}.
End CartItem.

(** [item.productId === productId]. *)
Definition same_product (productId : string) (item : CartItem.t) : bool :=
  String.eqb (CartItem.productId item) productId.

(** [item.quantity += change] on the item that [cart.find] returned: the
    first match, changed in place. *)
Fixpoint add_quantity (productId : string) (change : Z) (cart : list CartItem.t)
    : list CartItem.t :=
  match cart with
  | [] => []
  | item :: rest =>
      if same_product productId item
      then CartItem.mk (CartItem.productId item) (CartItem.productName item)
             (CartItem.price item) (CartItem.quantity item + change) :: rest
      else item :: add_quantity productId change rest
  end.

(** [addToCart]: nothing happens without a logged-in user. *)
Definition addToCart (currentUser : option ObjectId)
    (productId productName : string) (price : Q) (cart : list CartItem.t)
    : list CartItem.t :=
  match currentUser with
  | None => cart
  | Some _ =>
      match List.find (same_product productId) cart with
      | Some _ => add_quantity productId 1 cart
      | None => cart ++ [CartItem.mk productId productName price 1]
      end
  end.

(** [removeFromCart]. *)
Definition removeFromCart (productId : string) (cart : list CartItem.t)
    : list CartItem.t :=
  List.filter (fun item => negb (same_product productId item)) cart.

(** [updateQuantity]. *)
Definition updateQuantity (productId : string) (change : Z)
    (cart : list CartItem.t) : list CartItem.t :=
  match List.find (same_product productId) cart with
  | Some item =>
      if CartItem.quantity item + change <=? 0
      then removeFromCart productId (add_quantity productId change cart)
      else add_quantity productId change cart
  | None => cart
  end.

(** [cart.reduce((total, item) => total + item.quantity, 0)]. *)
Definition cartCount (cart : list CartItem.t) : Z :=
  fold_left (fun total item => total + CartItem.quantity item) cart 0.

(** A cart with one entry per product and at least one unit per entry. *)
Definition cart_ok (cart : list CartItem.t) : Prop :=
  List.NoDup (List.map CartItem.productId cart)
  /\ Forall (fun item => 1 <= CartItem.quantity item) cart.

(** ** Definitions used to state the further properties *)

(** What no request changes in an order once it is stored. *)
Definition same_core (o o' : Order.t) : Prop :=
  Order._id o' = Order._id o
  /\ Order.orderNumber o' = Order.orderNumber o
  /\ Order.buyer o' = Order.buyer o
  /\ Order.items o' = Order.items o
  /\ Order.totalAmount o' = Order.totalAmount o
  /\ Order.paymentMethod o' = Order.paymentMethod o
  /\ Order.shippingAddress o' = Order.shippingAddress o
  /\ Order.isActive o' = Order.isActive o.

(** A product at a later time: the same owner, not reactivated, and still
    approved if it was. *)
Definition product_evolves (p p' : Product.t) : Prop :=
  Product.farmer p' = Product.farmer p
  /\ (Product.isActive p = false -> Product.isActive p' = false)
  /\ (Product.isApproved p = true -> Product.isApproved p' = true).

(** The stored total of every order is the total of its lines. *)
Definition totals_consistent (st : Store) : Prop :=
  forall id o, orders st !! id = Some o -> calculateTotal o = (Order.totalAmount o, o).

(** *** Sample requests *)

Definition empty_world : World := mkWorld (sample_store 10) ∅.

Definition ordered_world : World := mkWorld ordered_store ∅.

(** The farmer and the buyer moving the sample order along, with a payment,
    a price change, an order request and two stray attempts in between. *)
Definition sample_requests : list Request :=
  [ UpdateStatus 7%N 100%N confirmed (Some "packing"%string);
    SetPaymentStatus 50%N 100%N paid (Some "QX12"%string);
    UpdateStatus 7%N 100%N pending None;
    UpdateProduct 7%N 1%N (ProductUpdate.mk (Some (95 # 1)) None None);
    CreateOrder 51%N fresh_b (sample_request [2]);
    UpdateStatus 50%N 100%N processing None;
    UpdateStatus 7%N 100%N shipped None;
    UpdateStatus 50%N 100%N delivered None;
    UpdateStatus 50%N 100%N cancelled None ].

(** A product request of farmer 7, and the world after the farmer created
    the product as number 2, the admin approved it and the farmer deleted
    it. *)
Definition sample_product_request : ProductRequest.t :=
  ProductRequest.mk "Fresh milk" "Milk from Kapsabet, delivered daily" "dairy"
    "milk" (60 # 1) "litre" 20 1.

Definition listed_world : World :=
  serve_all [CreateProduct 7%N 2%N sample_product_request;
             ApproveProduct 2%N approve None] empty_world.

Definition deleted_world : World := serve listed_world (DeleteProduct 7%N 2%N).

(** Attempts to bring the deleted product back. *)
Definition revival_requests : list Request :=
  [ ApproveProduct 2%N approve (Some "ok"%string);
    UpdateProduct 7%N 2%N (ProductUpdate.mk (Some (55 # 1)) (Some 50) (Some true));
    CreateProduct 7%N 2%N sample_product_request ].

(** An order for five litres of product 2. *)
Definition milk_request : OrderRequest.t :=
  OrderRequest.mk [ReqItem.mk 2%N 5] "cash" sample_address None.

(** Every product has a non-negative price. *)
Definition prices_nonneg (ps : gmap N Product.t) : Prop :=
  forall id p, ps !! id = Some p -> (0 <= Product.price p)%Q.

(** The products of page [page] for a page size [limit]; the empty list when
    the request is refused. *)
Definition page_products {A : Type} (page limit : Z) (matching : list A) : list A :=
  match listProducts (Some page) (Some limit) matching with
  | Ok (products, _) => products
  | Err _ => []
  end.


(** The product checks of the first loop accept the item. *)
Definition orderable (ps : gmap N Product.t) (item : ReqItem.t) : Prop :=
  exists line, check_item ps item = Ok line.

(** An order that names product 1 twice, a restock, an update with a
    negative price and quantity, and an order for three units. *)
Definition stock_requests : list Request :=
  [ CreateOrder 50%N fresh_a (sample_request [1; 1]);
    UpdateProduct 7%N 1%N (ProductUpdate.mk None (Some 2) None);
    UpdateProduct 7%N 1%N (ProductUpdate.mk (Some (-5 # 1)) (Some (-3)) None);
    CreateOrder 51%N fresh_b (sample_request [3]) ].
(** * Properties *)

(** ** The order processor *)

Lemma check_item_ok (ps : gmap N Product.t) item line :
  check_item ps item = Ok line ->
  exists product,
    ps !! ReqItem.productId item = Some product
    /\ Product.isActive product = true
    /\ Product.isApproved product = true
    /\ Product.isAvailable product = true
    /\ ReqItem.quantity item <= Product.quantity product
    /\ line = Item.mk (ReqItem.productId item) (ReqItem.quantity item)
                (Product.price product) (Product.farmer product).
Proof.
  unfold check_item. intros H.
  destruct (ps !! ReqItem.productId item) as [product|] eqn:Hp; [|discriminate].
  exists product.
  destruct (Product.isActive product), (Product.isApproved product),
    (Product.isAvailable product); simpl in H; try discriminate.
  destruct (Product.quantity product <? ReqItem.quantity item) eqn:Hq;
    [discriminate|].
  apply Z.ltb_ge in Hq. inversion H. auto 10.
Qed.



Lemma Order_insert_some o st st1 :
  Order_insert o st = Some st1 ->
  orders st !! Order._id o = None
  /\ st1 = set_orders (<[Order._id o := o]> (orders st)) st.
Proof.
  unfold Order_insert. intros H.
  destruct (orders st !! Order._id o); [discriminate|].
  destruct (orderNumber_taken _ _); [discriminate|].
  inversion H. auto.
Qed.

(** A document that [save] accepts has an order number already, so the save
    hook never generates one; the document is stored as it was handed in. *)
Lemma Order_save_some fresh o st o' st' :
  Order_save fresh o st = Some (o', st') ->
  Order_validate o = true
  /\ Order.orderNumber o <> EmptyString
  /\ o' = o
  /\ orders st !! Order._id o = None
  /\ st' = set_orders (<[Order._id o := o]> (orders st)) st.
Proof.
  unfold Order_save. intros H.
  destruct (Order_validate o) eqn:Hv; simpl in H; [|discriminate].
  assert (Hn : notEmpty (Order.orderNumber o) = true).
  { unfold Order_validate in Hv. repeat (apply andb_prop in Hv as [Hv ?]).
    exact Hv. }
  unfold Order_pre_save in H. rewrite Hn in H.
  assert (Hsame : Order.set_orderNumber (Order.orderNumber o) o = o)
    by (by destruct o).
  rewrite Hsame in H.
  destruct (Order_insert o st) as [st1|] eqn:Hi; [|discriminate].
  apply Order_insert_some in Hi as [Hnone ->]. inversion H; subst.
  repeat split; auto. by destruct (Order.orderNumber o').
Qed.

(** The document that the handler builds has no order number and is
    refused by [save], whatever the request and the store. *)
Lemma Order_save_new_Order user fresh req orderItems totalAmount st :
  Order_save fresh (new_Order user fresh req orderItems totalAmount) st = None.
Proof. reflexivity. Qed.

(** Every run of the handler ends in an error and writes nothing. *)
Lemma createOrder_err user fresh req st :
  exists e, createOrder user fresh req st = (Err e, st).
Proof.
  unfold createOrder.
  destruct (validate_order req) as [req'|]; [|eauto].
  destruct (validate_items _ _ _ _) as [[orderItems totalAmount]|e]; [|eauto].
  cbv zeta. rewrite Order_save_new_Order. eauto.
Qed.

Lemma createOrder_store user fresh req st :
  snd (createOrder user fresh req st) = st.
Proof. by destruct (createOrder_err user fresh req st) as [e ->]. Qed.

Lemma validate_order_items req req' :
  validate_order req = Some req' ->
  OrderRequest.items req' = OrderRequest.items req
  /\ OrderRequest.items req <> []
  /\ Forall (fun it => 1 <= ReqItem.quantity it) (OrderRequest.items req).
Proof.
  unfold validate_order. intros H.
  match type of H with (if ?c then _ else _) = _ => destruct c eqn:Hc end;
    [|discriminate].
  inversion H; subst; simpl.
  repeat (apply andb_prop in Hc as [Hc ?]).
  split; [reflexivity|]. split.
  - destruct (OrderRequest.items req); [discriminate|congruence].
  - apply Forall_forall. intros it Hin. apply Z.leb_le.
    match goal with Hf : forallb _ _ = true |- _ =>
      rewrite forallb_forall in Hf; apply Hf end.
    apply list_elem_of_In. exact Hin.
Qed.

Lemma updateProduct_orders user id u st r st' :
  updateProduct user id u st = (r, st') -> orders st' = orders st.
Proof.
  unfold updateProduct. intros H.
  destruct (negb (validate_update u)); [inversion H; reflexivity|].
  destruct (products st !! id) as [product|]; [|inversion H; reflexivity].
  destruct (negb _); inversion H; reflexivity.
Qed.

(** *** The stepwise handler *)

Lemma run_Responded n r st : run n (Responded r) st = (Responded r, st).
Proof. induction n as [|n IH]; simpl; auto. Qed.

Lemma run_add n m h st :
  run (n + m) h st = run m (fst (run n h st)) (snd (run n h st)).
Proof.
  revert h st. induction n as [|n IH]; intros h st; simpl; [reflexivity|].
  destruct (createOrder_step h st) as [h' st']. apply IH.
Qed.

(** The first loop, one [findById] per step: after as many steps as there
    are items the handler has answered with the error of the first item
    that fails, or stands before the [save] with the accumulators of
    [validate_items]. *)
Lemma run_first_loop c items :
  forall acc tot st,
    run (length items) (Validating c items acc tot) st
    = match validate_items (products st) items acc tot with
      | Err e => (Responded (Err e), st)
      | Ok (orderItems, totalAmount) => (Validating c [] orderItems totalAmount, st)
      end.
Proof.
  induction items as [|item rest IH]; intros acc tot st; simpl; [reflexivity|].
  destruct (check_item (products st) item) as [line|e].
  - apply IH.
  - apply run_Responded.
Qed.

(** Run alone for enough steps, the stepwise handler ends with the response
    and the store of [createOrder]. *)
Lemma createOrder_run user fresh req st n :
  (length (OrderRequest.items req) + 1 <= n)%nat ->
  run n (createOrder_start user fresh req) st
  = (Responded (fst (createOrder user fresh req st)),
     snd (createOrder user fresh req st)).
Proof.
  intros Hn. unfold createOrder_start, createOrder.
  destruct (validate_order req) as [req'|] eqn:Hv; [|apply run_Responded].
  apply validate_order_items in Hv as (Hitems & _ & _).
  replace n with (length (OrderRequest.items req') + (n - length (OrderRequest.items req')))%nat
    by (rewrite Hitems; lia).
  rewrite run_add, run_first_loop.
  destruct (validate_items _ _ _ _) as [[orderItems totalAmount]|e]; simpl.
  - destruct (n - length (OrderRequest.items req'))%nat as [|k] eqn:Hk;
      [rewrite Hitems in Hk; lia|].
    simpl. apply run_Responded.
  - apply run_Responded.
Qed.



(** The second loop, product by product: each product loses the units that
    the lines ask of it in total, whatever its stock. *)
Lemma decrement_all_lookup lines :
  forall (ps : gmap N Product.t) id,
    decrement_all lines ps !! id
    = (fun p => Product.set_quantity (Product.quantity p - requested id lines) p)
        <$> ps !! id.
Proof.
  induction lines as [|line rest IH]; intros ps id; simpl.
  - destruct (ps !! id) as [[]|]; simpl; [|reflexivity].
    unfold Product.set_quantity; simpl. by rewrite Z.sub_0_r.
  - unfold decrement_all in IH. rewrite IH. unfold inc_quantity.
    rewrite lookup_alter.
    destruct (N.eqb_spec (Item.product line) id) as [->|Hne].
    + rewrite decide_True by reflexivity.
      destruct (ps !! id) as [p|]; simpl; [|reflexivity].
      unfold Product.set_quantity; simpl. do 2 f_equal. lia.
    + rewrite decide_False by exact Hne. reflexivity.
Qed.

Lemma createOrder_start_before_save user fresh req :
  before_save (createOrder_start user fresh req)
  /\ (steps_left (createOrder_start user fresh req)
      <= S (length (OrderRequest.items req)))%nat.
Proof.
  unfold createOrder_start.
  destruct (validate_order req) as [req'|] eqn:Hv; simpl; [|split; [done|lia]].
  apply validate_order_items in Hv as (-> & _ & _). split; [done|lia].
Qed.

(** A step of a handler that has written nothing writes nothing, and
    brings the handler closer to its answer. *)
Lemma createOrder_step_before_save h st :
  before_save h ->
  snd (createOrder_step h st) = st
  /\ before_save (fst (createOrder_step h st))
  /\ (steps_left (fst (createOrder_step h st)) <= pred (steps_left h))%nat.
Proof.
  destruct h as [c [|item rest] orderItems totalAmount|order lines|r];
    intros Hq.
  - unfold createOrder_step. cbv zeta. rewrite Order_save_new_Order.
    simpl. split; [done|]. split; [done|lia].
  - simpl. destruct (check_item (products st) item) as [line|e]; simpl;
      (split; [done|]); (split; [done|lia]).
  - destruct Hq.
  - simpl. split; [done|]. split; [exact Hq|lia].
Qed.

Lemma createOrder_step_with_before_save outcome h st :
  before_save h ->
  snd (createOrder_step_with outcome h st) = st
  /\ before_save (fst (createOrder_step_with outcome h st))
  /\ (steps_left (fst (createOrder_step_with outcome h st))
      <= pred (steps_left h))%nat.
Proof.
  intros Hq.
  destruct (createOrder_step_before_save h st Hq) as (Hst & Hq' & Hl).
  destruct h as [c remaining orderItems totalAmount|order lines|r];
    destruct outcome; simpl in *; try done; (split; [done|]);
    (split; [done|lia]).
Qed.

Lemma run_with_before_save outcomes :
  forall h st,
    before_save h ->
    snd (run_with outcomes h st) = st
    /\ before_save (fst (run_with outcomes h st))
    /\ (steps_left (fst (run_with outcomes h st))
        <= steps_left h - length outcomes)%nat.
Proof.
  induction outcomes as [|outcome rest IH]; intros h st Hq; simpl.
  - split; [done|]. split; [done|lia].
  - destruct (createOrder_step_with_before_save outcome h st Hq)
      as (Hst & Hq' & Hl).
    destruct (createOrder_step_with outcome h st) as [h' st']. simpl in *.
    subst st'. destruct (IH h' st Hq') as (Hst' & Hq'' & Hl').
    split; [exact Hst'|]. split; [exact Hq''|lia].
Qed.

Lemma before_save_answered h :
  before_save h -> steps_left h = 0%nat -> exists e, h = Responded (Err e).
Proof.
  destruct h as [c remaining orderItems totalAmount|order lines|[r|e]]; simpl;
    try done. intros _ _. by exists e.
Qed.

(** C2. Whatever run the handler takes, and however its store calls end
    (resolved, or rejected before or after the store applied them), it
    leaves the whole store as it was: no order is persisted and no quantity
    is decremented.  It never answers with a success, and once one call per
    item and one more have ended it has answered with an error; run from
    start to end, it returns an error and the store unchanged. *)
Theorem createOrder_all_or_nothing user fresh req st outcomes h st' :
  run_with outcomes (createOrder_start user fresh req) st = (h, st') ->
  st' = st
  /\ (forall r, h = Responded r -> exists e, r = Err e)
  /\ ((length (OrderRequest.items req) < length outcomes)%nat ->
      exists e, h = Responded (Err e))
  /\ exists e, createOrder user fresh req st = (Err e, st).
Proof.
  intros H.
  destruct (createOrder_start_before_save user fresh req) as [Hq Hl].
  destruct (run_with_before_save outcomes _ st Hq) as (Hst & Hq' & Hl').
  rewrite H in Hst, Hq', Hl'. simpl in *.
  split; [exact Hst|]. split; [|split].
  - intros r ->. simpl in Hq'. destruct r as [x|e]; [discriminate|by exists e].
  - intros Hlen. apply before_save_answered; [exact Hq'|lia].
  - apply createOrder_err.
Qed.

Lemma createOrder_all_or_nothing_witness :
  exists e e',
    run_with [resolves; rejects_after; resolves]
      (createOrder_start 50%N fresh_a (sample_request [3; 2])) (sample_store 10)
    = (Responded (Err e), sample_store 10)
    /\ createOrder 50%N fresh_a (sample_request [3; 11]) (sample_store 10)
       = (Err e', sample_store 10).
Proof.
  destruct (run_with [resolves; rejects_after; resolves]
              (createOrder_start 50%N fresh_a (sample_request [3; 2]))
              (sample_store 10)) as [h st'] eqn:H.
  destruct (createOrder_all_or_nothing _ _ _ _ _ _ _ H) as (-> & _ & Hresp & _).
  destruct Hresp as [e ->]; [simpl; lia|].
  destruct (createOrder_all_or_nothing 50%N fresh_a (sample_request [3; 11])
              (sample_store 10) [] _ _ eq_refl) as (_ & _ & _ & [e' He']).
  exists e, e'. split; [reflexivity|exact He'].
Defined.

Lemma createOrder_calls_store calls :
  forall st, createOrder_calls calls st = st.
Proof.
  unfold createOrder_calls.
  induction calls as [|[[user fresh] req] rest IH]; intros st; simpl;
    [reflexivity|].
  by rewrite createOrder_store.
Qed.

(** C3. From a store in which every quantity is non-negative, every
    sequence of calls, with repeated products or not, leaves every quantity
    non-negative: the products are what they were. *)
Theorem createOrder_calls_keep_stock_nonneg calls st :
  stock_nonneg (products st) ->
  stock_nonneg (products (createOrder_calls calls st))
  /\ products (createOrder_calls calls st) = products st.
Proof. intros Hst. by rewrite createOrder_calls_store. Qed.

Lemma createOrder_calls_keep_stock_nonneg_witness :
  stock_nonneg
    (products (createOrder_calls
                 [(50%N, fresh_a, sample_request [1; 1]);
                  (51%N, fresh_b, sample_request [1])] (sample_store 1)))
  /\ Product.quantity
       <$> products (createOrder_calls
                       [(50%N, fresh_a, sample_request [1; 1]);
                        (51%N, fresh_b, sample_request [1])] (sample_store 1))
           !! 1%N
     = Some 1.
Proof.
  destruct (createOrder_calls_keep_stock_nonneg
              [(50%N, fresh_a, sample_request [1; 1]);
               (51%N, fresh_b, sample_request [1])] (sample_store 1))
    as [Hst Hsame].
  - intros id product. unfold sample_store; simpl.
    rewrite lookup_singleton_Some. intros [_ <-]. simpl. lia.
  - split; [exact Hst|]. rewrite Hsame. reflexivity.
Defined.

(** *** Two requests in flight *)

(** Two handlers that write nothing do not see each other: each ends where
    it ends when it runs alone for the steps that the schedule gives it. *)
Lemma run2_before_save schedule :
  forall h1 h2 st,
    before_save h1 -> before_save h2 ->
    run2 schedule (h1, h2, st)
    = (fst (run (turns true schedule) h1 st),
       fst (run (turns false schedule) h2 st), st).
Proof.
  unfold run2, turns.
  induction schedule as [|first rest IH]; intros h1 h2 st Hq1 Hq2; simpl;
    [reflexivity|].
  destruct first; simpl.
  - destruct (createOrder_step_before_save h1 st Hq1) as (Hst & Hq' & _).
    destruct (createOrder_step h1 st) as [h1' st']. simpl in *. subst st'.
    by apply IH.
  - destruct (createOrder_step_before_save h2 st Hq2) as (Hst & Hq' & _).
    destruct (createOrder_step h2 st) as [h2' st']. simpl in *. subst st'.
    by apply IH.
Qed.

(** C4. A product with one unit in stock and two requests for one unit
    each.  Whatever the order in which their store calls complete, once
    each request has had its [findById] and its [save], both have been
    answered with the server error of the [catch] block, since [save]
    refuses either document; no order is stored and the quantity is still
    1.  A request that runs alone fares the same. *)
Theorem concurrent_createOrder_both_fail schedule :
  (2 <= turns true schedule)%nat ->
  (2 <= turns false schedule)%nat ->
  run2 schedule (request_a, request_b, sample_store 1)
  = (Responded (Err ServerError), Responded (Err ServerError), sample_store 1)
  /\ Product.quantity <$> products (sample_store 1) !! 1%N = Some 1
  /\ createOrder 50%N fresh_a (sample_request [1]) (sample_store 1)
     = (Err ServerError, sample_store 1).
Proof.
  intros Ha Hb. split; [|split; reflexivity].
  rewrite run2_before_save by done.
  replace (turns true schedule) with (2 + (turns true schedule - 2))%nat by lia.
  replace (turns false schedule) with (2 + (turns false schedule - 2))%nat by lia.
  rewrite !run_add.
  change (run 2 request_a (sample_store 1))
    with (Responded (Err ServerError) : Handler, sample_store 1).
  change (run 2 request_b (sample_store 1))
    with (Responded (Err ServerError) : Handler, sample_store 1).
  simpl. by rewrite !run_Responded.
Qed.

Lemma concurrent_createOrder_both_fail_witness :
  run2 [true; false; false; true] (request_a, request_b, sample_store 1)
  = (Responded (Err ServerError), Responded (Err ServerError), sample_store 1).
Proof.
  apply (concurrent_createOrder_both_fail [true; false; false; true]);
    unfold turns; simpl; lia.
Defined.

(** ** The order state machine *)

Lemma includes_In l s : includes l s = true <-> In s l.
Proof.
  unfold includes. rewrite existsb_exists. split.
  - intros (x & Hin & Hx). apply bool_decide_eq_true in Hx. by subst.
  - intros Hin. exists s. split; [exact Hin|]. by apply bool_decide_eq_true.
Qed.

(** The table of the handler has exactly the edges of the specification. *)
Lemma validTransitions_table from to :
  In to (validTransitions from) <-> In (from, to) transition_table.
Proof.
  destruct from, to; simpl; split; intros H;
    repeat (destruct H as [H|H]; try discriminate H); auto 10; try done.
Qed.

Lemma isFarmer_true user order :
  isFarmer user order = true
  <-> exists item, In item (Order.items order) /\ Item.farmer item = user.
Proof.
  unfold isFarmer. rewrite existsb_exists.
  split; intros (item & Hin & H); exists item; split; auto;
    by apply N.eqb_eq.
Qed.

Lemma isFarmer_false user order :
  isFarmer user order = false
  <-> forall item, In item (Order.items order) -> Item.farmer item <> user.
Proof.
  rewrite <- not_true_iff_false, isFarmer_true. split.
  - intros Hno item Hin Heq. apply Hno. by exists item.
  - intros Hall (item & Hin & Heq). by apply (Hall item).
Qed.


(** What a successful status update went through. *)
Lemma updateStatus_ok_inv user id status notes st o st' :
  updateStatus user id status notes st = (Ok o, st') ->
  exists order notes',
    validate_notes notes = Some notes'
    /\ orders st !! id = Some order
    /\ Order.isActive order = true
    /\ (isBuyer user order = true \/ isFarmer user order = true)
    /\ In status (validTransitions (Order.status order))
    /\ o = attach_notes notes' (isFarmer user order) (Order.set_status status order)
    /\ st' = set_orders (<[id := o]> (orders st)) st.
Proof.
  unfold updateStatus. intros H.
  destruct (validate_notes notes) as [notes'|]; [|discriminate].
  destruct (orders st !! id) as [order|]; [|discriminate].
  destruct (Order.isActive order) eqn:Ha; simpl in H; [|discriminate].
  destruct (negb (isBuyer user order) && negb (isFarmer user order)) eqn:Hu;
    [discriminate|].
  destruct (includes _ status) eqn:Hi; simpl in H; [|discriminate].
  apply includes_In in Hi. inversion H; subst.
  exists order, notes'. repeat split; auto.
  apply andb_false_iff in Hu as [Hu|Hu]; apply negb_false_iff in Hu; auto.
Qed.


Lemma authorised_bool user order :
  Order.buyer order = user
  \/ (exists item, In item (Order.items order) /\ Item.farmer item = user) ->
  isBuyer user order = true \/ isFarmer user order = true.
Proof.
  intros [Hb|Hf]; [left; by apply N.eqb_eq|right; by apply isFarmer_true].
Qed.



(** C6. On an existing order, a user who is neither its buyer nor the farmer
    of any of its line items is refused with Forbidden, whatever status is
    requested, and the store (so every field of the order) stays as it
    was. *)
Theorem updateStatus_third_party_forbidden user id status notes st order :
  orders st !! id = Some order ->
  Order.isActive order = true ->
  is_Some (validate_notes notes) ->
  Order.buyer order <> user ->
  (forall item, In item (Order.items order) -> Item.farmer item <> user) ->
  updateStatus user id status notes st = (Err Forbidden, st)
  /\ orders (snd (updateStatus user id status notes st)) !! id = Some order.
Proof.
  intros Ho Ha [notes' Hn] Hb Hf.
  assert (H : updateStatus user id status notes st = (Err Forbidden, st)).
  { unfold updateStatus. rewrite Hn, Ho, Ha. simpl.
    apply N.eqb_neq in Hb. apply isFarmer_false in Hf.
    unfold isBuyer. by rewrite Hb, Hf. }
  by rewrite H.
Qed.

Lemma updateStatus_third_party_forbidden_witness :
  updateStatus 8%N 100%N confirmed (Some "on my way"%string) ordered_store
  = (Err Forbidden, ordered_store).
Proof.
  apply (updateStatus_third_party_forbidden 8%N 100%N confirmed
           (Some "on my way"%string) ordered_store sample_order).
  - vm_compute. reflexivity.
  - reflexivity.
  - eexists. vm_compute. reflexivity.
  - vm_compute. discriminate.
  - intros item Hin. simpl in Hin. destruct Hin as [<-|Hin]; [|destruct Hin].
    vm_compute. discriminate.
Defined.

Lemma attach_notes_fields notes (farmer : bool) o :
  match notes with
  | Some n =>
      if notEmpty n
      then if farmer
           then Order.farmerNotes (attach_notes notes farmer o) = n
                /\ Order.deliveryNotes (attach_notes notes farmer o)
                   = Order.deliveryNotes o
           else Order.deliveryNotes (attach_notes notes farmer o) = n
                /\ Order.farmerNotes (attach_notes notes farmer o)
                   = Order.farmerNotes o
      else attach_notes notes farmer o = o
  | None => attach_notes notes farmer o = o
  end.
Proof.
  destruct notes as [n|]; simpl; [|reflexivity].
  destruct (notEmpty n), farmer; simpl; auto.
Qed.

Lemma notEmpty_true s : notEmpty s = true <-> s <> EmptyString.
Proof. destruct s; simpl; split; congruence. Qed.

(** C10. In a successful status update, non-empty notes (as the handler
    receives them, trimmed by the validation chain) go to [farmerNotes] when
    the actor is the farmer of one of the line items, the buyer of the order
    included, and leave [deliveryNotes] alone; they go to [deliveryNotes],
    leaving [farmerNotes] alone, otherwise; absent or empty notes leave both
    fields as they were. *)
Theorem updateStatus_notes_routing user id status notes st o st' :
  updateStatus user id status notes st = (Ok o, st') ->
  exists order,
    orders st !! id = Some order
    /\ orders st' !! id = Some o
    /\ (forall raw,
          notes = Some raw -> trim raw <> EmptyString ->
          ((exists item, In item (Order.items order) /\ Item.farmer item = user) ->
           Order.farmerNotes o = trim raw
           /\ Order.deliveryNotes o = Order.deliveryNotes order)
          /\ ((forall item, In item (Order.items order) -> Item.farmer item <> user) ->
              Order.deliveryNotes o = trim raw
              /\ Order.farmerNotes o = Order.farmerNotes order))
    /\ (notes = None \/ (exists raw, notes = Some raw /\ trim raw = EmptyString) ->
        Order.farmerNotes o = Order.farmerNotes order
        /\ Order.deliveryNotes o = Order.deliveryNotes order).
Proof.
  intros H.
  apply updateStatus_ok_inv in H
    as (order & notes' & Hn & Ho & _ & _ & _ & -> & ->).
  exists order. split; [exact Ho|]. split; [apply lookup_insert_eq|].
  pose proof (attach_notes_fields notes' (isFarmer user order)
                (Order.set_status status order)) as Hfields.
  unfold validate_notes in Hn. split.
  - intros raw -> Hne.
    destruct (String.length (trim raw) <=? 500)%nat; [|discriminate].
    inversion Hn; subst notes'.
    apply notEmpty_true in Hne. rewrite Hne in Hfields.
    split; intros Hf.
    + apply isFarmer_true in Hf. rewrite Hf in Hfields |- *. exact Hfields.
    + apply isFarmer_false in Hf. rewrite Hf in Hfields |- *. exact Hfields.
  - intros [->|(raw & -> & Hempty)].
    + inversion Hn; subst notes'. by rewrite Hfields.
    + destruct (String.length (trim raw) <=? 500)%nat; [|discriminate].
      inversion Hn; subst notes'. rewrite Hempty. simpl. auto.
Qed.

Lemma updateStatus_notes_routing_witness :
  exists o st',
    updateStatus 7%N 100%N confirmed (Some "  call first "%string) own_order_store
    = (Ok o, st')
    /\ Order.buyer own_order = 7%N
    /\ Order.farmerNotes o = "call first"%string
    /\ Order.deliveryNotes o = Order.deliveryNotes own_order.
Proof.
  destruct (updateStatus 7%N 100%N confirmed (Some "  call first "%string)
              own_order_store) as [r st'] eqn:H.
  assert (Hr : is_ok r = true) by (vm_compute in H; by inversion H).
  destruct r as [o|e]; [|discriminate].
  exists o, st'. split; [reflexivity|]. split; [reflexivity|].
  destruct (updateStatus_notes_routing _ _ _ _ _ _ _ H)
    as (order & Ho & _ & Hnotes & _).
  assert (order = own_order) as ->.
  { vm_compute in Ho. inversion Ho. reflexivity. }
  apply (Hnotes "  call first "%string eq_refl).
  - vm_compute. discriminate.
  - eexists. split; [left; reflexivity|reflexivity].
Defined.

(** ** The rating aggregator *)

Lemma post_save_reviews pid st : reviews (post_save pid st) = reviews st.
Proof. unfold post_save. by destruct (products st !! pid). Qed.

(** The body of the delete hook computes the aggregate of the
    specification. *)
Lemma delete_hook_aggregate rs :
  (if (0 <? length rs)%nat then averaged rs else Rating.mk (Num 0) 0)
  = aggregate rs.
Proof. by destruct rs. Qed.

Lemma post_save_rating pid st p :
  products st !! pid = Some p ->
  rating_of pid (post_save pid st)
  = Some (averaged (active_reviews pid (reviews st))).
Proof.
  intros Hp. unfold rating_of, post_save, write_rating. rewrite Hp. simpl.
  by rewrite lookup_alter_eq, Hp.
Qed.

Lemma post_findOneAndDelete_rating pid st p :
  products st !! pid = Some p ->
  rating_of pid (post_findOneAndDelete (Some pid) st)
  = Some (aggregate (active_reviews pid (reviews st))).
Proof.
  intros Hp. unfold rating_of, post_findOneAndDelete, write_rating.
  rewrite Hp. simpl. by rewrite lookup_alter_eq, Hp, delete_hook_aggregate.
Qed.

(** A physical delete takes the review out of the collection and touches
    nothing else. *)
Lemma removeReview_store id st :
  removeReview id st
  = match List.find (same_id id) (reviews st) with
    | Some _ => set_reviews (remove_first id (reviews st)) st
    | None => st
    end.
Proof. unfold removeReview. by destruct (List.find _ _). Qed.

(** C7. A product with one active review of rating 5 carries the aggregate
    [{5, 1}].  Soft-deleting that review runs the save hook, which divides
    by the number of remaining active reviews without testing for zero: the
    aggregate becomes [{NaN, 0}].  The body of the delete hook has the
    test: for a [this.product] that names the product it writes [{0, 0}].
    Deleting the review physically calls that hook with the query, so it
    writes nothing and the aggregate stays [{5, 1}]. *)
Theorem soft_delete_of_last_review_gives_NaN :
  rating_of 1%N reviewed_store = Some (Rating.mk (Num 5) 1)
  /\ active_reviews 1%N (reviews (deactivateReview 200%N reviewed_store)) = []
  /\ rating_of 1%N (deactivateReview 200%N reviewed_store)
     = Some (Rating.mk NaN 0)
  /\ rating_of 1%N
       (post_findOneAndDelete (Some 1%N)
          (set_reviews (remove_first 200%N (reviews reviewed_store))
             reviewed_store))
     = Some (Rating.mk (Num 0) 0)
  /\ active_reviews 1%N (reviews (removeReview 200%N reviewed_store)) = []
  /\ rating_of 1%N (removeReview 200%N reviewed_store)
     = Some (Rating.mk (Num 5) 1).
Proof. repeat split; vm_compute; reflexivity. Qed.

Lemma find_fresh_last id rs r :
  existsb (same_id id) rs = false -> same_id id r = true ->
  List.find (same_id id) (rs ++ [r]) = Some r.
Proof.
  intros Hrs Hr. induction rs as [|x rest IH]; simpl in *.
  - by rewrite Hr.
  - apply orb_false_iff in Hrs as [Hx Hrest]. rewrite Hx. by apply IH.
Qed.

Lemma remove_first_fresh_last id rs r :
  existsb (same_id id) rs = false -> same_id id r = true ->
  remove_first id (rs ++ [r]) = rs.
Proof.
  intros Hrs Hr. induction rs as [|x rest IH]; simpl in *.
  - by rewrite Hr.
  - apply orb_false_iff in Hrs as [Hx Hrest]. rewrite Hx. f_equal. by apply IH.
Qed.

Lemma replace_review_fresh_last r' rs r :
  existsb (same_id (Review._id r')) rs = false ->
  same_id (Review._id r') r = true ->
  replace_review r' (rs ++ [r]) = rs ++ [r'].
Proof.
  intros Hrs Hr. induction rs as [|x rest IH]; simpl in *.
  - by rewrite Hr.
  - apply orb_false_iff in Hrs as [Hx Hrest]. rewrite Hx. f_equal. by apply IH.
Qed.

Lemma active_reviews_inactive_last pid rs r :
  Review.isActive r = false ->
  active_reviews pid (rs ++ [r]) = active_reviews pid rs.
Proof.
  intros Hr. unfold active_reviews. rewrite List.filter_app. simpl.
  rewrite Hr, andb_false_r. apply app_nil_r.
Qed.

(** What a successful submission did. *)
Lemma submitReview_ok_inv r st r' st1 :
  submitReview r st = (Ok r', st1) ->
  r' = r
  /\ rating_in_range (Review.rating r) = true
  /\ existsb (same_id (Review._id r)) (reviews st) = false
  /\ existsb (same_pair r) (reviews st) = false
  /\ st1 = post_save (Review.product r) (set_reviews (reviews st ++ [r]) st).
Proof.
  unfold submitReview. intros H.
  destruct (rating_in_range _); simpl in H; [|discriminate].
  destruct (existsb (same_id _) _); [discriminate|].
  destruct (existsb (same_pair r) _); [discriminate|].
  by inversion H.
Qed.

Lemma active_reviews_active_last pid rs r :
  Review.product r = pid -> Review.isActive r = true ->
  active_reviews pid (rs ++ [r]) = active_reviews pid rs ++ [r].
Proof.
  intros <- Ha. unfold active_reviews. rewrite List.filter_app. simpl.
  by rewrite N.eqb_refl, Ha.
Qed.

Lemma aggregate_count rs : Rating.count (aggregate rs) = Z.of_nat (length rs).
Proof. by destruct rs. Qed.

(** C8. Submitting an active review for a stored product and then deleting
    that review physically gives back the review collection, but not the
    aggregate: the delete hook writes nothing, so the product keeps the
    aggregate of the submission, with the deleted review counted.  When the
    aggregate before the submission was the one of the active reviews, the
    aggregate after the round trip differs from it. *)
Theorem review_round_trip_not_restored r st r' st1 p :
  products st !! Review.product r = Some p ->
  Review.isActive r = true ->
  submitReview r st = (Ok r', st1) ->
  reviews (removeReview (Review._id r') st1) = reviews st
  /\ products (removeReview (Review._id r') st1) = products st1
  /\ rating_of (Review.product r) (removeReview (Review._id r') st1)
     = Some (averaged (active_reviews (Review.product r) (reviews st) ++ [r]))
  /\ (Product.rating p = aggregate (active_reviews (Review.product r) (reviews st)) ->
      rating_of (Review.product r) (removeReview (Review._id r') st1)
      <> rating_of (Review.product r) st).
Proof.
  intros Hp Ha H.
  apply submitReview_ok_inv in H as (-> & _ & Hid & _ & ->).
  assert (Hself : same_id (Review._id r) r = true) by apply N.eqb_refl.
  rewrite removeReview_store, post_save_reviews. simpl.
  rewrite (find_fresh_last _ _ _ Hid Hself).
  rewrite (remove_first_fresh_last _ _ _ Hid Hself).
  assert (Hrating :
            rating_of (Review.product r)
              (set_reviews (reviews st)
                 (post_save (Review.product r)
                    (set_reviews (reviews st ++ [r]) st)))
            = Some (averaged (active_reviews (Review.product r) (reviews st)
                              ++ [r]))).
  { unfold rating_of, post_save, write_rating. simpl. rewrite Hp. simpl.
    rewrite lookup_alter_eq, Hp. simpl.
    by rewrite (active_reviews_active_last _ _ _ eq_refl Ha). }
  split; [reflexivity|]. split; [reflexivity|]. split; [exact Hrating|].
  intros Hagg. rewrite Hrating. unfold rating_of. rewrite Hp. simpl.
  rewrite Hagg. intros Heq. inversion Heq as [Hr].
  apply (f_equal Rating.count) in Hr. rewrite aggregate_count in Hr.
  unfold averaged in Hr. simpl in Hr. rewrite length_app in Hr. simpl in Hr. lia.
Qed.

Lemma review_round_trip_not_restored_witness :
  rating_of 1%N reviewed_store = Some (Rating.mk (Num 5) 1)
  /\ rating_of 1%N (snd (submitReview second_review reviewed_store))
     = Some (Rating.mk (Num 4) 2)
  /\ reviews (removeReview 201%N (snd (submitReview second_review reviewed_store)))
     = reviews reviewed_store
  /\ rating_of 1%N
       (removeReview 201%N (snd (submitReview second_review reviewed_store)))
     = Some (Rating.mk (Num 4) 2).
Proof.
  split; [vm_compute; reflexivity|]. split; [vm_compute; reflexivity|].
  destruct (review_round_trip_not_restored second_review reviewed_store
              second_review (snd (submitReview second_review reviewed_store))
              (Product.set_rating (Rating.mk (Num 5) 1) (sample_product 7)))
    as (Hrev & _ & Hrating & _).
  - vm_compute. reflexivity.
  - reflexivity.
  - vm_compute. reflexivity.
  - split; [exact Hrev|]. etransitivity; [exact Hrating|].
    vm_compute. reflexivity.
Defined.

Lemma same_pair_true a b :
  same_pair a b = true
  <-> (Review.product a, Review.buyer a) = (Review.product b, Review.buyer b).
Proof.
  unfold same_pair. rewrite andb_true_iff, !N.eqb_eq.
  split; [intros [-> ->]; reflexivity|intros H; by inversion H].
Qed.

Lemma existsb_same_pair r rs :
  existsb (same_pair r) rs = true
  <-> In (Review.product r, Review.buyer r) (pairs rs).
Proof.
  unfold pairs. rewrite existsb_exists, in_map_iff. split.
  - intros (x & Hin & Hx). apply same_pair_true in Hx. exists x. auto.
  - intros (x & Hx & Hin). exists x. split; [exact Hin|].
    by apply same_pair_true.
Qed.

Lemma pairs_replace_review review rs :
  List.find (same_id (Review._id review)) rs = Some review ->
  pairs (replace_review (Review.set_isActive false review) rs) = pairs rs.
Proof.
  induction rs as [|x rest IH]; simpl; intros Hf; [reflexivity|].
  destruct (same_id (Review._id review) x).
  - by inversion Hf.
  - simpl. f_equal. by apply IH.
Qed.

Lemma pairs_remove_first id rs :
  List.NoDup (pairs rs) -> List.NoDup (pairs (remove_first id rs)).
Proof.
  induction rs as [|x rest IH]; simpl; intros Hnd; [constructor|].
  inversion Hnd as [|y ys Hnot Hnd']; subst.
  destruct (same_id id x); [exact Hnd'|]. simpl. constructor; [|by apply IH].
  intros Hin. apply Hnot. clear - Hin.
  induction rest as [|z rest IH]; simpl in *; [done|].
  destruct (same_id id z); [by right|].
  destruct Hin as [Hin|Hin]; [by left|right; by apply IH].
Qed.

Lemma submitReview_pairs r st :
  List.NoDup (pairs (reviews st)) ->
  List.NoDup (pairs (reviews (snd (submitReview r st)))).
Proof.
  intros Hnd. unfold submitReview.
  destruct (negb _); [exact Hnd|].
  destruct (existsb (same_id _) _); [exact Hnd|].
  destruct (existsb (same_pair r) _) eqn:Hp; [exact Hnd|]. simpl.
  rewrite post_save_reviews. simpl. unfold pairs. rewrite List.map_app. simpl.
  apply List.NoDup_app; repeat split.
  - exact Hnd.
  - constructor; [intros []|constructor].
  - intros a Hin [<-|[]].
    apply existsb_same_pair in Hin. congruence.
Qed.

Lemma deactivateReview_pairs id st :
  List.NoDup (pairs (reviews st)) ->
  List.NoDup (pairs (reviews (deactivateReview id st))).
Proof.
  intros Hnd. unfold deactivateReview.
  destruct (List.find (same_id id) (reviews st)) as [review|] eqn:Hf;
    [|exact Hnd].
  rewrite post_save_reviews. simpl.
  pose proof (List.find_some _ _ Hf) as [_ Hid]. apply N.eqb_eq in Hid.
  subst id. by rewrite pairs_replace_review.
Qed.

Lemma removeReview_pairs id st :
  List.NoDup (pairs (reviews st)) ->
  List.NoDup (pairs (reviews (removeReview id st))).
Proof.
  intros Hnd. rewrite removeReview_store.
  destruct (List.find (same_id id) (reviews st)); [|exact Hnd].
  simpl. by apply pairs_remove_first.
Qed.

(** C9. While a review of a buyer for a product is in the collection, a
    further submission by that buyer for that product is refused and leaves
    the store (reviews and aggregates) as it was; the refusal is
    DuplicateReview for a well-formed document; and no sequence of
    submissions, deactivations and removals ever puts two reviews with the
    same product and buyer into the collection. *)
Theorem submitReview_duplicate_rejected r st existing :
  In existing (reviews st) ->
  Review.product existing = Review.product r ->
  Review.buyer existing = Review.buyer r ->
  (exists e, submitReview r st = (Err e, st))
  /\ (rating_in_range (Review.rating r) = true ->
      (forall x, In x (reviews st) -> Review._id x <> Review._id r) ->
      submitReview r st = (Err DuplicateReview, st))
  /\ (List.NoDup (pairs (reviews st)) ->
      forall ops, List.NoDup (pairs (reviews (fold_left apply_op ops st)))).
Proof.
  intros Hin Hp Hb.
  assert (Hdup : existsb (same_pair r) (reviews st) = true).
  { apply existsb_exists. exists existing. split; [exact Hin|].
    apply same_pair_true. congruence. }
  split; [|split].
  - unfold submitReview. rewrite Hdup.
    destruct (negb _); [eauto|]. destruct (existsb (same_id _) _); eauto.
  - intros Hrange Hfresh. unfold submitReview. rewrite Hrange, Hdup. simpl.
    destruct (existsb (same_id _) _) eqn:Hid; [|reflexivity].
    apply existsb_exists in Hid as (x & Hx & Hid). apply N.eqb_eq in Hid.
    by destruct (Hfresh x Hx).
  - intros Hnd ops. revert Hnd. generalize st. clear.
    induction ops as [|op ops IH]; intros st Hnd; simpl; [exact Hnd|].
    apply IH. destruct op; simpl.
    + by apply submitReview_pairs.
    + by apply deactivateReview_pairs.
    + by apply removeReview_pairs.
Qed.

Lemma submitReview_duplicate_rejected_witness :
  submitReview (sample_review 201%N 50%N 3) reviewed_store
  = (Err DuplicateReview, reviewed_store).
Proof.
  destruct (submitReview_duplicate_rejected (sample_review 201%N 50%N 3)
              reviewed_store (sample_review 200%N 50%N 5))
    as (_ & H & _).
  - vm_compute. left. reflexivity.
  - reflexivity.
  - reflexivity.
  - apply H; [reflexivity|].
    intros x Hx. vm_compute in Hx. destruct Hx as [<-|Hx]; [|destruct Hx].
    vm_compute. discriminate.
Defined.
(** * Further properties *)

(** ** What each request does to the order collection *)

Lemma same_core_refl o : same_core o o.
Proof. by repeat split. Qed.

Lemma same_core_trans o1 o2 o3 :
  same_core o1 o2 -> same_core o2 o3 -> same_core o1 o3.
Proof.
  intros (A1 & A2 & A3 & A4 & A5 & A6 & A7 & A8)
         (B1 & B2 & B3 & B4 & B5 & B6 & B7 & B8).
  repeat split; congruence.
Qed.

Lemma attach_notes_core notes farmer o : same_core o (attach_notes notes farmer o).
Proof.
  unfold attach_notes. destruct notes as [n|]; [|apply same_core_refl].
  destruct (notEmpty n), farmer; by repeat split.
Qed.

Lemma updateStatus_err_inv user id status notes st e st' :
  updateStatus user id status notes st = (Err e, st') -> st' = st.
Proof.
  unfold updateStatus. intros H.
  repeat case_match; by inversion H.
Qed.

(** The orders after a status update: the addressed order keeps its core,
    the others are as they were. *)
Lemma updateStatus_orders user id status notes st i :
  match orders st !! i with
  | Some o =>
      exists o', orders (snd (updateStatus user id status notes st)) !! i = Some o'
                 /\ same_core o o'
  | None => orders (snd (updateStatus user id status notes st)) !! i = None
  end.
Proof.
  destruct (updateStatus user id status notes st) as [[o'|e] st'] eqn:H; simpl.
  - apply updateStatus_ok_inv in H
      as (order & notes' & _ & Ho & _ & _ & Hin & -> & ->). simpl.
    destruct (decide (id = i)) as [<-|Hne].
    + rewrite Ho, lookup_insert_eq. eexists. split; [reflexivity|].
      eapply same_core_trans; [|apply attach_notes_core]. by repeat split.
    + rewrite lookup_insert_ne by done.
      destruct (orders st !! i) as [o|]; [|done].
      exists o. split; [done|apply same_core_refl].
  - apply updateStatus_err_inv in H as ->.
    destruct (orders st !! i) as [o|]; [|done].
    exists o. split; [done|apply same_core_refl].
Qed.

Lemma find_own_order_some user id st order :
  find_own_order user id st = Some order ->
  orders st !! id = Some order
  /\ Order.buyer order = user
  /\ Order.isActive order = true.
Proof.
  unfold find_own_order. intros H.
  destruct (orders st !! id) as [o|]; [|discriminate].
  destruct (Order.buyer o =? user)%N eqn:Hb; [|discriminate].
  destruct (Order.isActive o) eqn:Ha; [|discriminate].
  inversion H; subst. apply N.eqb_eq in Hb. auto.
Qed.

(** What a successful payment update went through. *)
Lemma setPaymentStatus_ok_inv user id paymentStatus reference w o w' :
  setPaymentStatus user id paymentStatus reference w = (Ok o, w') ->
  exists order,
    orders (store w) !! id = Some order
    /\ Order.buyer order = user
    /\ Order.isActive order = true
    /\ o = Order_set_paymentStatus paymentStatus order
    /\ store w' = set_orders (<[id := o]> (orders (store w))) (store w).
Proof.
  unfold setPaymentStatus. intros H.
  destruct (validate_reference reference) as [reference'|]; [|discriminate].
  destruct (find_own_order user id (store w)) as [order|] eqn:Hf; [|discriminate].
  apply find_own_order_some in Hf as (Ho & Hb & Ha).
  inversion H; subst. exists order. auto.
Qed.

Lemma setPaymentStatus_err_inv user id paymentStatus reference w e w' :
  setPaymentStatus user id paymentStatus reference w = (Err e, w') -> w' = w.
Proof.
  unfold setPaymentStatus. intros H.
  repeat case_match; by inversion H.
Qed.

Lemma setPaymentStatus_orders user id paymentStatus reference w i :
  match orders (store w) !! i with
  | Some o =>
      exists o',
        orders (store (snd (setPaymentStatus user id paymentStatus reference w))) !! i
        = Some o'
        /\ same_core o o'
  | None =>
      orders (store (snd (setPaymentStatus user id paymentStatus reference w))) !! i
      = None
  end.
Proof.
  destruct (setPaymentStatus user id paymentStatus reference w)
    as [[o'|e] w'] eqn:H; simpl.
  - apply setPaymentStatus_ok_inv in H as (order & Ho & _ & _ & -> & ->). simpl.
    destruct (decide (id = i)) as [<-|Hne].
    + rewrite Ho, lookup_insert_eq. eexists. split; [reflexivity|].
      by repeat split.
    + rewrite lookup_insert_ne by done.
      destruct (orders (store w) !! i) as [o|]; [|done].
      exists o. split; [done|apply same_core_refl].
  - apply setPaymentStatus_err_inv in H as ->.
    destruct (orders (store w) !! i) as [o|]; [|done].
    exists o. split; [done|apply same_core_refl].
Qed.

Lemma createProduct_orders user new_id req st :
  orders (snd (createProduct user new_id req st)) = orders st.
Proof. unfold createProduct. by repeat case_match. Qed.

Lemma deleteProduct_orders user id st :
  orders (snd (deleteProduct user id st)) = orders st.
Proof. unfold deleteProduct. by repeat case_match. Qed.

Lemma approveProduct_orders id action notes st :
  orders (snd (approveProduct id action notes st)) = orders st.
Proof. unfold approveProduct. by repeat case_match. Qed.

Lemma post_save_orders pid st : orders (post_save pid st) = orders st.
Proof. unfold post_save. by destruct (products st !! pid). Qed.

Lemma apply_op_orders st op : orders (apply_op st op) = orders st.
Proof.
  destruct op as [r|id|id]; simpl.
  - unfold submitReview. repeat case_match; simpl; try done.
    by rewrite post_save_orders.
  - unfold deactivateReview. case_match; [|done]. by rewrite post_save_orders.
  - rewrite removeReview_store. by case_match.
Qed.

(** One request, seen from one order id. *)
Lemma serve_orders w r i :
  match orders (store w) !! i with
  | Some o =>
      exists o', orders (store (serve w r)) !! i = Some o' /\ same_core o o'
  | None => orders (store (serve w r)) !! i = None
  end.
Proof.
  assert (Hsame : forall st', orders st' = orders (store w) ->
            match orders (store w) !! i with
            | Some o => exists o', orders st' !! i = Some o' /\ same_core o o'
            | None => orders st' !! i = None
            end).
  { intros st' ->. destruct (orders (store w) !! i) as [o|]; [|done].
    exists o. split; [done|apply same_core_refl]. }
  destruct r; simpl.
  - apply Hsame. by rewrite createOrder_store.
  - apply updateStatus_orders.
  - apply setPaymentStatus_orders.
  - apply Hsame, createProduct_orders.
  - apply Hsame. by eapply updateProduct_orders, surjective_pairing.
  - apply Hsame, deleteProduct_orders.
  - apply Hsame, approveProduct_orders.
  - apply Hsame, apply_op_orders.
Qed.

Lemma serve_all_orders requests :
  forall w i,
    match orders (store w) !! i with
    | Some o =>
        exists o', orders (store (serve_all requests w)) !! i = Some o'
                   /\ same_core o o'
    | None => orders (store (serve_all requests w)) !! i = None
    end.
Proof.
  induction requests as [|r rest IH]; intros w i; simpl.
  - destruct (orders (store w) !! i) as [o|]; [|done].
    exists o. split; [done|apply same_core_refl].
  - pose proof (serve_orders w r i) as Hstep. specialize (IH (serve w r) i).
    destruct (orders (store w) !! i) as [o|].
    + destruct Hstep as (o1 & Ho1 & Hc1). rewrite Ho1 in IH.
      destruct IH as (o' & Ho' & Hc'). exists o'.
      split; [exact Ho'|by eapply same_core_trans].
    + by rewrite Hstep in IH.
Qed.

(** ** Orders over any sequence of requests *)

(** X1. Requests served one after the other neither add nor remove an
    order: an order that is stored stays stored, with its identity, order
    number, buyer, line items, total, payment method, address and active
    flag as they were, and an id that names no order names none
    afterwards. *)
Theorem stored_order_core_never_changes requests w id :
  (forall o,
     orders (store w) !! id = Some o ->
     exists o',
       orders (store (serve_all requests w)) !! id = Some o' /\ same_core o o')
  /\ (orders (store w) !! id = None ->
      orders (store (serve_all requests w)) !! id = None).
Proof.
  pose proof (serve_all_orders requests w id) as H.
  split.
  - intros o Ho. by rewrite Ho in H.
  - intros Ho. by rewrite Ho in H.
Qed.

Lemma stored_order_core_never_changes_witness :
  (exists o',
     orders (store (serve_all sample_requests ordered_world)) !! 100%N = Some o'
     /\ same_core sample_order o'
     /\ Order.status o' = delivered)
  /\ orders (store (serve_all sample_requests ordered_world)) !! 101%N = None.
Proof.
  destruct (stored_order_core_never_changes sample_requests ordered_world 100%N)
    as [Hkept _].
  destruct (stored_order_core_never_changes sample_requests ordered_world 101%N)
    as [_ Hnone].
  split; [|apply Hnone; vm_compute; reflexivity].
  destruct (Hkept sample_order) as (o' & Ho' & Hcore); [vm_compute; reflexivity|].
  exists o'. split; [exact Ho'|]. split; [exact Hcore|].
  vm_compute in Ho'. by inversion Ho'.
Defined.

Lemma Order_set_totalAmount_same o :
  Order_set_totalAmount (Order.totalAmount o) o = o.
Proof. by destruct o. Qed.

Lemma same_core_consistent o o' :
  same_core o o' ->
  calculateTotal o = (Order.totalAmount o, o) ->
  calculateTotal o' = (Order.totalAmount o', o').
Proof.
  intros (_ & _ & _ & Hitems & Htot & _) H.
  unfold calculateTotal in *. apply (f_equal fst) in H. simpl in H.
  rewrite Hitems, H, <- Htot. by rewrite Order_set_totalAmount_same.
Qed.

(** X3. If [calculateTotal] is a no-op on every stored order (it returns
    the stored total and leaves the document as it is), it still is after
    any sequence of requests: no request touches the lines or the total of
    a stored order, and none adds an order. *)
Theorem totals_stay_consistent requests w :
  totals_consistent (store w) ->
  totals_consistent (store (serve_all requests w)).
Proof.
  intros Hw id o' Ho'.
  pose proof (serve_all_orders requests w id) as H.
  destruct (orders (store w) !! id) as [o|] eqn:Ho.
  - destruct H as (o1 & Ho1 & Hc). rewrite Ho' in Ho1. inversion Ho1; subst o1.
    eapply same_core_consistent; [exact Hc|]. by apply (Hw id).
  - congruence.
Qed.

Lemma totals_stay_consistent_witness :
  exists o',
    orders (store (serve_all sample_requests ordered_world)) !! 100%N = Some o'
    /\ Order.status o' = delivered
    /\ calculateTotal o' = ((0 + (80 # 1) * inject_Z 3)%Q, o').
Proof.
  assert (H : totals_consistent (store (serve_all sample_requests ordered_world))).
  { apply (totals_stay_consistent sample_requests ordered_world).
    intros id o Ho. unfold ordered_world, ordered_store in Ho. simpl in Ho.
    apply lookup_singleton_Some in Ho as [_ <-]. reflexivity. }
  destruct (orders (store (serve_all sample_requests ordered_world)) !! 100%N)
    as [o'|] eqn:Ho'; [|vm_compute in Ho'; discriminate Ho'].
  exists o'. split; [reflexivity|].
  pose proof (H 100%N o' Ho') as Hc.
  vm_compute in Ho'. inversion Ho'; subst o'. split; [reflexivity|exact Hc].
Defined.

(** ** Status updates in flight *)

Lemma attach_notes_validate notes farmer s o :
  Order_validate (attach_notes notes farmer (Order.set_status s o))
  = Order_validate o.
Proof.
  unfold attach_notes. destruct notes as [n|]; [|reflexivity].
  destruct (notEmpty n), farmer; reflexivity.
Qed.

(** Saved against the document that was loaded, the update gives the
    document with the assignments. *)
Lemma save_modified_alone loaded order :
  same_core loaded order ->
  Order.paymentStatus order = Order.paymentStatus loaded ->
  save_modified loaded order loaded = order.
Proof.
  destruct loaded, order. unfold same_core, save_modified. simpl.
  intros (-> & -> & -> & -> & -> & -> & -> & ->) ->.
  repeat match goal with
         | |- context [bool_decide ?P] => destruct (bool_decide_reflect P)
         | |- context [String.eqb ?a ?b] => destruct (String.eqb_spec a b)
         end; simpl; subst; reflexivity.
Qed.

(** A status update that runs alone on valid documents is [updateStatus]. *)
Lemma updateStatus_run user id status notes st :
  (forall order, orders st !! id = Some order -> Order_validate order = true) ->
  run_status 2 (updateStatus_start user id status notes) st
  = (Answered (fst (updateStatus user id status notes st)),
     snd (updateStatus user id status notes st)).
Proof.
  intros Hvalid. unfold updateStatus_start, updateStatus.
  destruct (validate_notes notes) as [notes'|]; [|reflexivity]. simpl.
  destruct (orders st !! id) as [order|] eqn:Ho; [|reflexivity].
  destruct (negb (Order.isActive order)); [reflexivity|].
  destruct (negb (isBuyer user order) && negb (isFarmer user order));
    [reflexivity|].
  destruct (negb (includes _ status)); [reflexivity|]. simpl.
  rewrite attach_notes_validate, (Hvalid order eq_refl). simpl. rewrite Ho. simpl.
  rewrite save_modified_alone; [reflexivity| |].
  - eapply same_core_trans; [|apply attach_notes_core]. by repeat split.
  - unfold attach_notes. destruct notes' as [n|]; [|reflexivity].
    destruct (notEmpty n), (isFarmer user order); reflexivity.
Qed.

Lemma table_changes_status from to :
  In (from, to) transition_table -> to <> from.
Proof.
  destruct from, to; simpl; intros H;
    repeat (destruct H as [H|H]; try discriminate H); try done.
Qed.

Lemma updateStatus_step_Finding user id status st order :
  orders st !! id = Some order ->
  Order.isActive order = true ->
  isBuyer user order = true \/ isFarmer user order = true ->
  In (Order.status order, status) transition_table ->
  updateStatus_step (Finding user id status None) st
  = (Saving id order (Order.set_status status order), st).
Proof.
  intros Ho Ha Hu Hin. simpl. rewrite Ho, Ha. simpl.
  assert (negb (isBuyer user order) && negb (isFarmer user order) = false) as ->.
  { destruct Hu as [-> | ->]; simpl; [reflexivity|apply andb_false_r]. }
  apply validTransitions_table, includes_In in Hin. by rewrite Hin.
Qed.

(** X24. Status updates of one order do not exclude each other.  For a
    stored, active and valid order and two involved users who each request
    a status that the table allows from the stored one: when both requests
    have read the order before either saves, both succeed; the stored
    status is that of the first save and then that of the second, whether
    or not the table has an edge between the two. *)
Theorem overlapping_status_updates_both_succeed st id order a b ta tb :
  orders st !! id = Some order ->
  Order.isActive order = true ->
  Order_validate order = true ->
  Order.buyer order = a
  \/ (exists item, In item (Order.items order) /\ Item.farmer item = a) ->
  Order.buyer order = b
  \/ (exists item, In item (Order.items order) /\ Item.farmer item = b) ->
  In (Order.status order, ta) transition_table ->
  In (Order.status order, tb) transition_table ->
  exists oa ob st3 st4,
    run_status2 [true; false; true]
      (updateStatus_start a id ta None, updateStatus_start b id tb None, st)
    = (Answered (Ok oa), Saving id order ob, st3)
    /\ Order.status <$> orders st3 !! id = Some ta
    /\ run_status2 [true; false; true; false]
         (updateStatus_start a id ta None, updateStatus_start b id tb None, st)
       = (Answered (Ok oa), Answered (Ok ob), st4)
    /\ Order.status oa = ta
    /\ Order.status ob = tb
    /\ Order.status <$> orders st4 !! id = Some tb.
Proof.
  intros Ho Ha Hv Hua Hub Hta Htb.
  apply authorised_bool in Hua, Hub.
  pose proof (table_changes_status _ _ Htb) as Hnb.
  assert (Hva : Order_validate (Order.set_status ta order) = true)
    by (rewrite <- Hv; by destruct order).
  assert (Hvb : Order_validate (Order.set_status tb order) = true)
    by (rewrite <- Hv; by destruct order).
  assert (Hsa : save_modified order (Order.set_status ta order) order
                = Order.set_status ta order)
    by (apply save_modified_alone; by repeat split).
  set (oa := Order.set_status ta order) in *.
  set (ob := Order.set_status tb order) in *.
  set (st3 := set_orders (<[id := oa]> (orders st)) st).
  set (st4 := set_orders (<[id := save_modified order ob oa]> (orders st3)) st3).
  change (updateStatus_start a id ta None) with (Finding a id ta None).
  change (updateStatus_start b id tb None) with (Finding b id tb None).
  assert (H1 : status_step2 (Finding a id ta None, Finding b id tb None, st) true
               = (Saving id order oa, Finding b id tb None, st)).
  { unfold status_step2.
    by rewrite (updateStatus_step_Finding a id ta st order Ho Ha Hua Hta). }
  assert (H2 : status_step2 (Saving id order oa, Finding b id tb None, st) false
               = (Saving id order oa, Saving id order ob, st)).
  { unfold status_step2.
    by rewrite (updateStatus_step_Finding b id tb st order Ho Ha Hub Htb). }
  assert (H3 : status_step2 (Saving id order oa, Saving id order ob, st) true
               = (Answered (Ok oa), Saving id order ob, st3)).
  { unfold status_step2, updateStatus_step. by rewrite Hva, Ho, Hsa. }
  assert (H4 : status_step2 (Answered (Ok oa), Saving id order ob, st3) false
               = (Answered (Ok oa), Answered (Ok ob), st4)).
  { unfold status_step2, updateStatus_step. rewrite Hvb. unfold st3 at 1. simpl.
    by rewrite lookup_insert_eq. }
  exists oa, ob, st3, st4. unfold run_status2. cbn [fold_left].
  rewrite H1, H2, H3, H4.
  split; [reflexivity|].
  split; [unfold st3; simpl; by rewrite lookup_insert_eq|].
  split; [reflexivity|]. split; [reflexivity|]. split; [reflexivity|].
  unfold st4. simpl. rewrite lookup_insert_eq. simpl. f_equal.
  unfold save_modified, ob, oa. simpl.
  rewrite bool_decide_eq_false_2 by exact Hnb.
  by rewrite !String.eqb_refl.
Qed.

Lemma overlapping_status_updates_both_succeed_witness :
  exists oa ob st3 st4,
    run_status2 [true; false; true]
      (updateStatus_start 50%N 100%N cancelled None,
       updateStatus_start 7%N 100%N confirmed None, ordered_store)
    = (Answered (Ok oa), Saving 100%N sample_order ob, st3)
    /\ Order.status <$> orders st3 !! 100%N = Some cancelled
    /\ run_status2 [true; false; true; false]
         (updateStatus_start 50%N 100%N cancelled None,
          updateStatus_start 7%N 100%N confirmed None, ordered_store)
       = (Answered (Ok oa), Answered (Ok ob), st4)
    /\ Order.status <$> orders st4 !! 100%N = Some confirmed
    /\ ~ In (cancelled, confirmed) transition_table.
Proof.
  destruct (overlapping_status_updates_both_succeed ordered_store 100%N
              sample_order 50%N 7%N cancelled confirmed)
    as (oa & ob & st3 & st4 & H3 & Hs3 & H4 & _ & _ & Hs4).
  - vm_compute. reflexivity.
  - reflexivity.
  - vm_compute. reflexivity.
  - by left.
  - right. eexists. split; [left; reflexivity|reflexivity].
  - simpl. auto.
  - simpl. auto.
  - exists oa, ob, st3, st4. repeat split; try assumption.
    simpl. intros H. repeat (destruct H as [H|H]; try discriminate H). exact H.
Defined.

(** ** Products over any sequence of requests *)

Lemma product_evolves_refl p : product_evolves p p.
Proof. by repeat split. Qed.

Lemma product_evolves_trans p1 p2 p3 :
  product_evolves p1 p2 -> product_evolves p2 p3 -> product_evolves p1 p3.
Proof.
  intros (A1 & A2 & A3) (B1 & B2 & B3). repeat split; [congruence|auto|auto].
Qed.

Lemma apply_update_evolves u p : product_evolves p (apply_update u p).
Proof.
  unfold apply_update.
  destruct (ProductUpdate.price u), (ProductUpdate.quantity u),
    (ProductUpdate.isAvailable u); by repeat split.
Qed.

Lemma updateStatus_products user id status notes st :
  products (snd (updateStatus user id status notes st)) = products st.
Proof. unfold updateStatus. by repeat case_match. Qed.

Lemma setPaymentStatus_products user id paymentStatus reference w :
  products (store (snd (setPaymentStatus user id paymentStatus reference w)))
  = products (store w).
Proof. unfold setPaymentStatus. by repeat case_match. Qed.

Lemma createOrder_products user fresh req st :
  products (snd (createOrder user fresh req st)) = products st.
Proof. by rewrite createOrder_store. Qed.

Lemma write_rating_products pid r st i p :
  products st !! i = Some p ->
  exists p', products (write_rating pid r st) !! i = Some p'
             /\ product_evolves p p'.
Proof.
  intros Hp. unfold write_rating. simpl.
  destruct (decide (pid = i)) as [<-|Hne].
  - rewrite lookup_alter_eq, Hp. simpl. eexists. split; [done|by repeat split].
  - rewrite lookup_alter_ne by done. exists p. split; [done|by repeat split].
Qed.

Lemma apply_op_products st op i p :
  products st !! i = Some p ->
  exists p', products (apply_op st op) !! i = Some p' /\ product_evolves p p'.
Proof.
  intros Hp.
  assert (Hid : exists p', products st !! i = Some p' /\ product_evolves p p')
    by (exists p; split; [done|apply product_evolves_refl]).
  destruct op as [r|id|id]; simpl.
  - unfold submitReview. repeat case_match; simpl; try done.
    unfold post_save. simpl. case_match; [|done].
    by apply write_rating_products.
  - unfold deactivateReview. case_match; [|done].
    unfold post_save. simpl. case_match; [|done].
    by apply write_rating_products.
  - rewrite removeReview_store. by case_match.
Qed.

(** One request, seen from one product id. *)
Lemma serve_products w r i p :
  products (store w) !! i = Some p ->
  exists p', products (store (serve w r)) !! i = Some p' /\ product_evolves p p'.
Proof.
  intros Hp.
  assert (Hid : exists p', products (store w) !! i = Some p'
                           /\ product_evolves p p')
    by (exists p; split; [done|apply product_evolves_refl]).
  destruct r; simpl.
  - by rewrite createOrder_products.
  - by rewrite updateStatus_products.
  - by rewrite setPaymentStatus_products.
  - unfold createProduct. repeat case_match; simpl; try done.
    rewrite lookup_insert_ne; [done|congruence].
  - unfold updateProduct. repeat case_match; simpl; try done.
    destruct (decide (id = i)) as [<-|Hne].
    + rewrite lookup_alter_eq, Hp. simpl. eexists. split; [done|].
      apply apply_update_evolves.
    + by rewrite lookup_alter_ne.
  - unfold deleteProduct. repeat case_match; simpl; try done.
    destruct (decide (id = i)) as [<-|Hne].
    + rewrite lookup_insert_eq. eexists. split; [done|].
      match goal with
      | H1 : products _ !! ?k = Some ?a, H2 : products _ !! ?k = Some ?b |- _ =>
          assert (a = b) as -> by congruence
      end. by repeat split.
    + by rewrite lookup_insert_ne.
  - unfold approveProduct. repeat case_match; simpl; try done;
      (destruct (decide (id = i)) as [<-|Hne];
       [rewrite lookup_insert_eq; eexists; split; [done|];
        match goal with
        | H1 : products _ !! ?k = Some ?a, H2 : products _ !! ?k = Some ?b |- _ =>
            assert (a = b) as -> by congruence
        end; by repeat split
       |by rewrite lookup_insert_ne]).
  - by apply apply_op_products.
Qed.

Lemma serve_all_products requests :
  forall w id p,
    products (store w) !! id = Some p ->
    exists p',
      products (store (serve_all requests w)) !! id = Some p'
      /\ product_evolves p p'.
Proof.
  induction requests as [|r rest IH]; intros w id p Hp; simpl.
  - exists p. split; [exact Hp|apply product_evolves_refl].
  - destruct (serve_products w r id p Hp) as (p1 & Hp1 & He1).
    destruct (IH _ _ _ Hp1) as (p' & Hp' & He').
    exists p'. split; [exact Hp'|by eapply product_evolves_trans].
Qed.

(** X4. No sequence of requests removes a product, changes its owner,
    reactivates it once it is inactive (soft-deleted by its farmer or
    rejected by the admin), or withdraws an approval. *)
Theorem product_flags_are_permanent requests w id p :
  products (store w) !! id = Some p ->
  exists p',
    products (store (serve_all requests w)) !! id = Some p'
    /\ Product.farmer p' = Product.farmer p
    /\ (Product.isActive p = false -> Product.isActive p' = false)
    /\ (Product.isApproved p = true -> Product.isApproved p' = true).
Proof. apply serve_all_products. Qed.

Lemma product_flags_are_permanent_witness :
  exists p p',
    products (store deleted_world) !! 2%N = Some p
    /\ Product.isActive p = false
    /\ products (store (serve_all revival_requests deleted_world)) !! 2%N = Some p'
    /\ Product.farmer p' = Product.farmer p
    /\ Product.isActive p' = false.
Proof.
  destruct (products (store deleted_world) !! 2%N) as [p|] eqn:Hp;
    [|vm_compute in Hp; discriminate Hp].
  assert (Ha : Product.isActive p = false)
    by (vm_compute in Hp; inversion Hp; reflexivity).
  destruct (product_flags_are_permanent revival_requests deleted_world 2%N p Hp)
    as (p' & Hp' & Hf & Hact & _).
  exists p, p'. repeat split; auto.
Defined.

(** An order fails in the validation chain or in the first loop, before
    the [save], when it names a product that is missing, inactive or not
    approved. *)
Lemma validate_items_unavailable (ps : gmap N Product.t) items item :
  In item items ->
  (forall product,
     ps !! ReqItem.productId item = Some product ->
     Product.isActive product = false \/ Product.isApproved product = false) ->
  forall acc tot,
    exists e, validate_items ps items acc tot = Err e /\ e <> ServerError.
Proof.
  intros Hin Hbad.
  induction items as [|x rest IH]; intros acc tot; simpl; [destruct Hin|].
  destruct (check_item ps x) as [line|e] eqn:Hc.
  - destruct Hin as [->|Hin]; [|by apply IH].
    apply check_item_ok in Hc as (product & Hp & Ha & Hb & _).
    destruct (Hbad product Hp); congruence.
  - exists e. split; [reflexivity|].
    unfold check_item in Hc. repeat case_match; by inversion Hc.
Qed.

Lemma createOrder_fails_for user fresh req st item :
  In item (OrderRequest.items req) ->
  (forall product,
     products st !! ReqItem.productId item = Some product ->
     Product.isActive product = false \/ Product.isApproved product = false) ->
  exists e, createOrder user fresh req st = (Err e, st) /\ e <> ServerError.
Proof.
  intros Hin Hbad. unfold createOrder.
  destruct (validate_order req) as [req'|] eqn:Hv; [|by eexists].
  apply validate_order_items in Hv as (Hitems & _ & _). rewrite <- Hitems in Hin.
  destruct (validate_items_unavailable _ _ _ Hin Hbad [] 0%Q) as (e & -> & He).
  by exists e.
Qed.

(** X5. A soft delete succeeds for the owner only, changes nothing but the
    active flag of that product, and is final: whatever requests follow, an
    order that names the product fails in the validation chain or the
    product checks, before the [save], and writes nothing. *)
Theorem soft_delete_is_final user id w :
  is_ok (fst (deleteProduct user id (store w))) = true ->
  (exists p,
     products (store w) !! id = Some p
     /\ Product.farmer p = user
     /\ store (serve w (DeleteProduct user id))
        = set_products (<[id := Product_set_isActive false p]> (products (store w)))
            (store w))
  /\ forall requests buyer fresh req,
       In id (List.map ReqItem.productId (OrderRequest.items req)) ->
       exists e,
         createOrder buyer fresh req
           (store (serve_all requests (serve w (DeleteProduct user id))))
         = (Err e, store (serve_all requests (serve w (DeleteProduct user id))))
         /\ e <> ServerError.
Proof.
  simpl. unfold deleteProduct.
  destruct (products (store w) !! id) as [p|] eqn:Hp; simpl; [|discriminate].
  destruct (Product.farmer p =? user)%N eqn:Hf; simpl; [intros _|discriminate].
  apply N.eqb_eq in Hf. split; [by exists p|].
  intros requests buyer fresh req Hin.
  apply in_map_iff in Hin as (item & <- & Hin).
  eapply createOrder_fails_for; [exact Hin|].
  intros product Hprod. left.
  destruct (serve_all_products requests
              (with_store w (set_products
                 (<[ReqItem.productId item := Product_set_isActive false p]>
                    (products (store w))) (store w)))
              (ReqItem.productId item) (Product_set_isActive false p))
    as (p' & Hp' & _ & Hact & _).
  { simpl. apply lookup_insert_eq. }
  rewrite Hp' in Hprod. inversion Hprod; subst. by apply Hact.
Qed.

Lemma soft_delete_is_final_witness :
  createOrder 50%N fresh_a milk_request
    (store (serve_all revival_requests deleted_world))
  = (Err (ProductUnavailable 2%N),
     store (serve_all revival_requests deleted_world)).
Proof.
  destruct (soft_delete_is_final 7%N 2%N listed_world) as [_ H].
  - vm_compute. reflexivity.
  - destruct (H revival_requests 50%N fresh_a milk_request) as (e & He & _);
      [simpl; by left|].
    change (serve listed_world (DeleteProduct 7%N 2%N)) with deleted_world in He.
    rewrite He. f_equal. vm_compute in He. by inversion He.
Defined.

(** X6. A product that a farmer creates is stored with that farmer as owner
    and without approval, so an order that names it fails in the
    validation chain or the product checks and writes nothing; once the
    admin has approved it, an item for one unit up to the created quantity
    passes the product checks, at the created price. *)
Theorem new_product_needs_approval user new_id preq st p st1 :
  createProduct user new_id preq st = (Ok p, st1) ->
  products st !! new_id = None
  /\ products st1 !! new_id = Some p
  /\ Product.farmer p = user
  /\ Product.isApproved p = false
  /\ (forall buyer fresh req,
        In new_id (List.map ReqItem.productId (OrderRequest.items req)) ->
        exists e, createOrder buyer fresh req st1 = (Err e, st1)
                  /\ e <> ServerError)
  /\ (forall notes q,
        is_Some (validate_notes notes) ->
        1 <= q <= ProductRequest.quantity preq ->
        check_item (products (snd (approveProduct new_id approve notes st1)))
          (ReqItem.mk new_id q)
        = Ok (Item.mk new_id q (ProductRequest.price preq) user)).
Proof.
  unfold createProduct. intros H.
  destruct (negb (validate_product preq)); [discriminate|].
  destruct (ProductRequest.files preq =? 0)%nat; [discriminate|].
  destruct (products st !! new_id) eqn:Hnone; [discriminate|].
  inversion H; subst. clear H. simpl.
  split; [done|]. split; [apply lookup_insert_eq|].
  split; [done|]. split; [done|]. split.
  - intros buyer fresh req Hin.
    apply in_map_iff in Hin as (item & <- & Hin).
    eapply createOrder_fails_for; [exact Hin|].
    intros product Hprod. right. simpl in Hprod.
    rewrite lookup_insert_eq in Hprod. by inversion Hprod.
  - intros notes q [notes' Hn] Hq. unfold approveProduct. rewrite Hn. simpl.
    rewrite lookup_insert_eq. simpl. unfold check_item. simpl.
    rewrite lookup_insert_eq. simpl.
    destruct (ProductRequest.quantity preq <? q) eqn:Hlt; [|reflexivity].
    apply Z.ltb_lt in Hlt. lia.
Qed.

Lemma new_product_needs_approval_witness :
  exists p st1,
    createProduct 7%N 2%N sample_product_request (sample_store 10) = (Ok p, st1)
    /\ (exists e, createOrder 50%N fresh_a milk_request st1 = (Err e, st1)
                  /\ e <> ServerError)
    /\ check_item (products (snd (approveProduct 2%N approve None st1)))
         (ReqItem.mk 2%N 5)
       = Ok (Item.mk 2%N 5 (60 # 1) 7%N).
Proof.
  destruct (createProduct 7%N 2%N sample_product_request (sample_store 10))
    as [r st1] eqn:H.
  assert (Hr : is_ok r = true) by (vm_compute in H; by inversion H).
  destruct r as [p|e]; [|discriminate].
  destruct (new_product_needs_approval _ _ _ _ _ _ H)
    as (_ & _ & _ & _ & Hfail & Hok).
  exists p, st1. split; [reflexivity|]. split.
  - apply Hfail. simpl. by left.
  - apply (Hok None 5); [by eexists|]. simpl. lia.
Defined.

(** ** Who may read, pay for and move an order *)






(** ** The save of an order *)

(** X25. The save hook never generates an order number.  A document that
    [save] accepts has passed the [required] validator, so it has a number
    already, and it is stored under its [_id] exactly as it was handed in;
    and the document that the order route builds, which has no number, is
    refused whatever the request, the clock, the draw and the store. *)
Theorem save_never_generates_orderNumber :
  (forall fresh o st o' st',
     Order_save fresh o st = Some (o', st') ->
     Order.orderNumber o <> EmptyString
     /\ o' = o
     /\ orders st' !! Order._id o = Some o)
  /\ (forall user fresh req orderItems totalAmount st,
        Order_save fresh (new_Order user fresh req orderItems totalAmount) st
        = None).
Proof.
  split.
  - intros fresh o st o' st' H.
    apply Order_save_some in H as (_ & Hn & -> & _ & ->).
    split; [exact Hn|]. split; [reflexivity|]. simpl. apply lookup_insert_eq.
  - intros. apply Order_save_new_Order.
Qed.

Lemma save_never_generates_orderNumber_witness :
  Order_save fresh_b sample_order (sample_store 7) = Some (sample_order, ordered_store)
  /\ Order.orderNumber sample_order <> EmptyString
  /\ orders ordered_store !! 100%N = Some sample_order.
Proof.
  assert (H : Order_save fresh_b sample_order (sample_store 7)
              = Some (sample_order, ordered_store))
    by (vm_compute; reflexivity).
  destruct save_never_generates_orderNumber as [Hsave _].
  destruct (Hsave _ _ _ _ _ H) as (Hn & _ & Ho).
  split; [exact H|]. split; [exact Hn|exact Ho].
Defined.

(** ** Cancelling *)



(** ** Prices and quantities *)

Lemma apply_update_price u p :
  validate_update u = true ->
  (0 <= Product.price p)%Q ->
  (0 <= Product.price (apply_update u p))%Q.
Proof.
  unfold validate_update, apply_update. intros Hv Hp.
  destruct (ProductUpdate.price u) as [x|];
    destruct (ProductUpdate.quantity u), (ProductUpdate.isAvailable u);
    simpl in *; try exact Hp;
    apply andb_prop in Hv as [Hx _]; apply negb_true_iff in Hx;
    unfold Qneg in Hx; apply Z.ltb_ge in Hx;
    unfold Qle; simpl; lia.
Qed.

Lemma write_rating_price pid r st i p' :
  products (write_rating pid r st) !! i = Some p' ->
  exists p, products st !! i = Some p /\ Product.price p' = Product.price p.
Proof.
  unfold write_rating. simpl.
  destruct (decide (pid = i)) as [<-|Hne].
  - rewrite lookup_alter_eq.
    destruct (products st !! pid) as [p|]; simpl; [|discriminate].
    intros H. inversion H. by exists p.
  - rewrite lookup_alter_ne by done. intros H. by exists p'.
Qed.

Lemma apply_op_price st op i p' :
  products (apply_op st op) !! i = Some p' ->
  exists p, products st !! i = Some p /\ Product.price p' = Product.price p.
Proof.
  assert (Hid : products st !! i = Some p' ->
                exists p, products st !! i = Some p
                          /\ Product.price p' = Product.price p)
    by (intros H; by exists p').
  destruct op as [r|id|id]; simpl.
  - unfold submitReview. repeat case_match; simpl; try done.
    unfold post_save. simpl. case_match; [|done].
    intros Hx. apply write_rating_price in Hx. exact Hx.
  - unfold deactivateReview. case_match; [|done].
    unfold post_save. simpl. case_match; [|done].
    intros Hx. apply write_rating_price in Hx. exact Hx.
  - rewrite removeReview_store. by case_match.
Qed.

Lemma serve_prices w r :
  prices_nonneg (products (store w)) ->
  prices_nonneg (products (store (serve w r))).
Proof.
  intros Hw i p' Hp'.
  destruct r as [user fresh req|user oid status notes|user oid pstatus reference|user nid preq|user pid u|user pid|pid action notes|op];
    simpl in Hp'.
  - rewrite createOrder_products in Hp'. by apply (Hw i).
  - rewrite updateStatus_products in Hp'. by apply (Hw i).
  - rewrite setPaymentStatus_products in Hp'. by apply (Hw i).
  - unfold createProduct in Hp'.
    destruct (negb (validate_product preq)) eqn:Hv; [by apply (Hw i)|].
    destruct (ProductRequest.files preq =? 0)%nat; [by apply (Hw i)|].
    destruct (products (store w) !! nid); [by apply (Hw i)|].
    simpl in Hp'. destruct (decide (nid = i)) as [<-|Hne].
    + rewrite lookup_insert_eq in Hp'. inversion Hp'; subst. simpl.
      apply negb_false_iff in Hv. unfold validate_product in Hv.
      repeat (apply andb_prop in Hv as [Hv ?]).
      match goal with Hx : negb (Qneg _) = true |- _ =>
        apply negb_true_iff in Hx; unfold Qneg in Hx; apply Z.ltb_ge in Hx;
        unfold Qle; simpl; lia end.
    + rewrite lookup_insert_ne in Hp' by done. by apply (Hw i).
  - unfold updateProduct in Hp'.
    destruct (negb (validate_update u)) eqn:Hv; [by apply (Hw i)|].
    destruct (products (store w) !! pid) as [p0|]; [|by apply (Hw i)].
    destruct (negb (Product.farmer p0 =? user)%N); [by apply (Hw i)|].
    simpl in Hp'. apply negb_false_iff in Hv.
    destruct (decide (pid = i)) as [<-|Hne].
    + rewrite lookup_alter_eq in Hp'.
      destruct (products (store w) !! pid) as [p|] eqn:Hp; [|discriminate].
      simpl in Hp'. inversion Hp'; subst.
      apply apply_update_price; [exact Hv|by apply (Hw pid)].
    + rewrite lookup_alter_ne in Hp' by done. by apply (Hw i).
  - unfold deleteProduct in Hp'.
    destruct (products (store w) !! pid) as [p|] eqn:Hp; [|by apply (Hw i)].
    destruct (negb (Product.farmer p =? user)%N); [by apply (Hw i)|].
    simpl in Hp'.
    destruct (decide (pid = i)) as [<-|Hne].
    + rewrite lookup_insert_eq in Hp'. inversion Hp'; subst. simpl.
      by apply (Hw pid).
    + rewrite lookup_insert_ne in Hp' by done. by apply (Hw i).
  - unfold approveProduct in Hp'.
    destruct (validate_notes notes); [|by apply (Hw i)].
    destruct (products (store w) !! pid) as [p|] eqn:Hp; [|by apply (Hw i)].
    simpl in Hp'. destruct (decide (pid = i)) as [<-|Hne].
    + rewrite lookup_insert_eq in Hp'. inversion Hp'; subst.
      destruct action; simpl; by apply (Hw pid).
    + rewrite lookup_insert_ne in Hp' by done. by apply (Hw i).
  - apply apply_op_price in Hp' as (p & Hp & ->). by apply (Hw i).
Qed.

Lemma write_rating_quantity pid r st i p' :
  products (write_rating pid r st) !! i = Some p' ->
  exists p, products st !! i = Some p /\ Product.quantity p' = Product.quantity p.
Proof.
  unfold write_rating. simpl.
  destruct (decide (pid = i)) as [<-|Hne].
  - rewrite lookup_alter_eq.
    destruct (products st !! pid) as [p|]; simpl; [|discriminate].
    intros H. inversion H. by exists p.
  - rewrite lookup_alter_ne by done. intros H. by exists p'.
Qed.

Lemma apply_op_quantity st op i p' :
  products (apply_op st op) !! i = Some p' ->
  exists p, products st !! i = Some p /\ Product.quantity p' = Product.quantity p.
Proof.
  assert (Hid : products st !! i = Some p' ->
                exists p, products st !! i = Some p
                          /\ Product.quantity p' = Product.quantity p)
    by (intros H; by exists p').
  destruct op as [r|id|id]; simpl.
  - unfold submitReview. repeat case_match; simpl; try done.
    unfold post_save. simpl. case_match; [|done].
    intros Hx. apply write_rating_quantity in Hx. exact Hx.
  - unfold deactivateReview. case_match; [|done].
    unfold post_save. simpl. case_match; [|done].
    intros Hx. apply write_rating_quantity in Hx. exact Hx.
  - rewrite removeReview_store. by case_match.
Qed.

Lemma apply_update_quantity u p :
  validate_update u = true ->
  0 <= Product.quantity p ->
  0 <= Product.quantity (apply_update u p).
Proof.
  unfold validate_update, apply_update. intros Hv Hp.
  apply andb_prop in Hv as [_ Hq].
  destruct (ProductUpdate.price u) as [x|],
    (ProductUpdate.quantity u) as [n|],
    (ProductUpdate.isAvailable u) as [b|]; simpl in *; try exact Hp;
    by apply Z.leb_le.
Qed.

Lemma serve_stock w r :
  stock_nonneg (products (store w)) ->
  stock_nonneg (products (store (serve w r))).
Proof.
  intros Hw.
  destruct r as [user fresh req|user oid status notes|user oid pstatus reference
                |user nid preq|user pid u|user pid|pid action notes|op];
    simpl.
  - by rewrite createOrder_products.
  - by rewrite updateStatus_products.
  - by rewrite setPaymentStatus_products.
  - intros i p' Hp'. unfold createProduct in Hp'.
    destruct (negb (validate_product preq)) eqn:Hv; [by apply (Hw i)|].
    destruct (ProductRequest.files preq =? 0)%nat; [by apply (Hw i)|].
    destruct (products (store w) !! nid); [by apply (Hw i)|].
    simpl in Hp'. destruct (decide (nid = i)) as [<-|Hne].
    + rewrite lookup_insert_eq in Hp'. inversion Hp'; subst. simpl.
      apply negb_false_iff in Hv. unfold validate_product in Hv.
      apply andb_prop in Hv as [_ Hq]. by apply Z.leb_le.
    + rewrite lookup_insert_ne in Hp' by done. by apply (Hw i).
  - intros i p' Hp'. unfold updateProduct in Hp'.
    destruct (negb (validate_update u)) eqn:Hv; [by apply (Hw i)|].
    destruct (products (store w) !! pid) as [p0|]; [|by apply (Hw i)].
    destruct (negb (Product.farmer p0 =? user)%N); [by apply (Hw i)|].
    simpl in Hp'. apply negb_false_iff in Hv.
    destruct (decide (pid = i)) as [<-|Hne].
    + rewrite lookup_alter_eq in Hp'.
      destruct (products (store w) !! pid) as [p|] eqn:Hp; [|discriminate].
      simpl in Hp'. inversion Hp'; subst.
      apply apply_update_quantity; [exact Hv|by apply (Hw pid)].
    + rewrite lookup_alter_ne in Hp' by done. by apply (Hw i).
  - intros i p' Hp'. unfold deleteProduct in Hp'.
    destruct (products (store w) !! pid) as [p|] eqn:Hp; [|by apply (Hw i)].
    destruct (negb (Product.farmer p =? user)%N); [by apply (Hw i)|].
    simpl in Hp'. destruct (decide (pid = i)) as [<-|Hne].
    + rewrite lookup_insert_eq in Hp'. inversion Hp'; subst. simpl.
      by apply (Hw pid).
    + rewrite lookup_insert_ne in Hp' by done. by apply (Hw i).
  - intros i p' Hp'. unfold approveProduct in Hp'.
    destruct (validate_notes notes); [|by apply (Hw i)].
    destruct (products (store w) !! pid) as [p|] eqn:Hp; [|by apply (Hw i)].
    simpl in Hp'. destruct (decide (pid = i)) as [<-|Hne].
    + rewrite lookup_insert_eq in Hp'. inversion Hp'; subst.
      destruct action; simpl; by apply (Hw pid).
    + rewrite lookup_insert_ne in Hp' by done. by apply (Hw i).
  - intros i p' Hp'.
    apply apply_op_quantity in Hp' as (p & Hp & ->). by apply (Hw i).
Qed.

(** X12. The minima of the product schema hold under every sequence of
    requests: while no product has a negative price or a negative quantity,
    no request (an order, a product creation, update, deletion or approval,
    a status or payment update, a review) gives it one. *)
Theorem prices_and_stock_stay_nonneg requests w :
  prices_nonneg (products (store w)) ->
  stock_nonneg (products (store w)) ->
  prices_nonneg (products (store (serve_all requests w)))
  /\ stock_nonneg (products (store (serve_all requests w))).
Proof.
  revert w. induction requests as [|r rest IH]; intros w Hp Hq; simpl; [done|].
  apply IH; [by apply serve_prices|by apply serve_stock].
Qed.

Lemma prices_and_stock_stay_nonneg_witness :
  prices_nonneg
    (products (store (serve_all stock_requests (mkWorld (sample_store 1) ∅))))
  /\ stock_nonneg
       (products (store (serve_all stock_requests (mkWorld (sample_store 1) ∅))))
  /\ Product.quantity
       <$> products (store (serve_all stock_requests (mkWorld (sample_store 1) ∅)))
           !! 1%N
     = Some 2.
Proof.
  destruct (prices_and_stock_stay_nonneg stock_requests
              (mkWorld (sample_store 1) ∅)) as [Hp Hq].
  - intros id product. unfold sample_store; simpl.
    rewrite lookup_singleton_Some. intros [_ <-]. vm_compute. discriminate.
  - intros id product. unfold sample_store; simpl.
    rewrite lookup_singleton_Some. intros [_ <-]. simpl. lia.
  - split; [exact Hp|]. split; [exact Hq|]. vm_compute. reflexivity.
Defined.

(** ** The aggregate that a commit writes *)

(** X15. A successful submission of an active review for a stored product
    appends the review, recomputes the aggregate of that product over its
    active reviews with the new one included, so the count grows by one,
    and leaves everything else alone: the orders, the other products, and
    the price, stock, owner and flags of the reviewed product. *)
Theorem submitReview_commits_aggregate r st r' st' p :
  submitReview r st = (Ok r', st') ->
  products st !! Review.product r = Some p ->
  Review.isActive r = true ->
  reviews st' = reviews st ++ [r]
  /\ orders st' = orders st
  /\ products st'
     = <[Review.product r :=
           Product.set_rating
             (averaged (active_reviews (Review.product r) (reviews st) ++ [r])) p]>
         (products st)
  /\ Rating.count (averaged (active_reviews (Review.product r) (reviews st) ++ [r]))
     = Z.of_nat (length (active_reviews (Review.product r) (reviews st))) + 1.
Proof.
  intros H Hp Ha.
  apply submitReview_ok_inv in H as (-> & _ & _ & _ & ->).
  unfold post_save. simpl. rewrite Hp. unfold write_rating. simpl.
  rewrite (active_reviews_active_last _ _ _ eq_refl Ha).
  repeat split.
  - apply map_eq. intros i. destruct (decide (Review.product r = i)) as [<-|Hne].
    + by rewrite lookup_alter_eq, lookup_insert_eq, Hp.
    + by rewrite lookup_alter_ne, lookup_insert_ne.
  - rewrite length_app. simpl. lia.
Qed.

Lemma submitReview_commits_aggregate_witness :
  rating_of 1%N (snd (submitReview second_review reviewed_store))
  = Some (Rating.mk (Num 4) 2).
Proof.
  destruct (submitReview second_review reviewed_store) as [r st'] eqn:H.
  assert (Hr : r = Ok second_review) by (vm_compute in H; by inversion H).
  subst r.
  destruct (submitReview_commits_aggregate second_review reviewed_store
              second_review st'
              (Product.set_rating (Rating.mk (Num 5) 1) (sample_product 7)) H)
    as (_ & _ & Hprod & _).
  - vm_compute. reflexivity.
  - reflexivity.
  - unfold rating_of. simpl. rewrite Hprod.
    change (Review.product second_review) with 1%N.
    rewrite lookup_insert_eq. vm_compute. reflexivity.
Defined.

(** X26. A soft delete undoes a submission when another active review
    remains.  For a product whose aggregate is the one that the save hook
    computes from its active reviews, of which there is at least one:
    submitting a review and then deactivating it leaves the review in the
    collection, inactive, and gives the product the aggregate it had before
    the submission. *)
Theorem submit_then_deactivate_restores r st r' st1 p :
  products st !! Review.product r = Some p ->
  Product.rating p = averaged (active_reviews (Review.product r) (reviews st)) ->
  active_reviews (Review.product r) (reviews st) <> [] ->
  submitReview r st = (Ok r', st1) ->
  reviews (deactivateReview (Review._id r') st1)
  = reviews st ++ [Review.set_isActive false r]
  /\ active_reviews (Review.product r)
       (reviews (deactivateReview (Review._id r') st1))
     = active_reviews (Review.product r) (reviews st)
  /\ rating_of (Review.product r) (deactivateReview (Review._id r') st1)
     = rating_of (Review.product r) st.
Proof.
  intros Hp Hagg Hne H.
  apply submitReview_ok_inv in H as (-> & _ & Hid & _ & ->).
  assert (Hself : same_id (Review._id r) r = true) by apply N.eqb_refl.
  assert (Hrev : reviews (deactivateReview (Review._id r)
                            (post_save (Review.product r)
                               (set_reviews (reviews st ++ [r]) st)))
                 = reviews st ++ [Review.set_isActive false r]).
  { unfold deactivateReview. rewrite post_save_reviews. simpl.
    rewrite (find_fresh_last _ _ _ Hid Hself), post_save_reviews. simpl.
    by rewrite (replace_review_fresh_last (Review.set_isActive false r) _ r
                  Hid Hself). }
  split; [exact Hrev|]. split.
  - rewrite Hrev. by apply active_reviews_inactive_last.
  - unfold deactivateReview. rewrite post_save_reviews. simpl.
    rewrite (find_fresh_last _ _ _ Hid Hself).
    assert (Hprod : exists p1,
               products (set_reviews
                           (replace_review (Review.set_isActive false r)
                              (reviews st ++ [r]))
                           (post_save (Review.product r)
                              (set_reviews (reviews st ++ [r]) st)))
               !! Review.product r = Some p1).
    { unfold post_save, write_rating. simpl. rewrite Hp. simpl.
      rewrite lookup_alter_eq, Hp. by eexists. }
    destruct Hprod as [p1 Hp1].
    change (Review.product (Review.set_isActive false r))
      with (Review.product r).
    rewrite (post_save_rating _ _ _ Hp1). simpl.
    rewrite (replace_review_fresh_last (Review.set_isActive false r) _ r
               Hid Hself).
    rewrite active_reviews_inactive_last by reflexivity.
    unfold rating_of. rewrite Hp. simpl. by rewrite Hagg.
Qed.

Lemma submit_then_deactivate_restores_witness :
  rating_of 1%N reviewed_store = Some (Rating.mk (Num 5) 1)
  /\ rating_of 1%N (snd (submitReview second_review reviewed_store))
     = Some (Rating.mk (Num 4) 2)
  /\ rating_of 1%N
       (deactivateReview 201%N (snd (submitReview second_review reviewed_store)))
     = Some (Rating.mk (Num 5) 1).
Proof.
  split; [vm_compute; reflexivity|]. split; [vm_compute; reflexivity|].
  destruct (submit_then_deactivate_restores second_review reviewed_store
              second_review (snd (submitReview second_review reviewed_store))
              (Product.set_rating (Rating.mk (Num 5) 1) (sample_product 7)))
    as (_ & _ & Hrating).
  - vm_compute. reflexivity.
  - vm_compute. reflexivity.
  - vm_compute. discriminate.
  - vm_compute. reflexivity.
  - etransitivity; [exact Hrating|]. vm_compute. reflexivity.
Defined.

(** ** The shopping cart *)

Lemma cartCount_acc cart :
  forall acc,
    fold_left (fun total item => total + CartItem.quantity item) cart acc
    = acc + cartCount cart.
Proof.
  unfold cartCount.
  induction cart as [|item rest IH]; intros acc; simpl; [lia|].
  rewrite (IH (acc + _)), (IH (0 + _)). lia.
Qed.

Lemma cartCount_cons item cart :
  cartCount (item :: cart) = CartItem.quantity item + cartCount cart.
Proof. unfold cartCount at 1. simpl. rewrite cartCount_acc. lia. Qed.

Lemma cartCount_app cart1 cart2 :
  cartCount (cart1 ++ cart2) = cartCount cart1 + cartCount cart2.
Proof.
  induction cart1 as [|item rest IH]; simpl; [unfold cartCount at 2; simpl; lia|].
  rewrite !cartCount_cons, IH. lia.
Qed.

Lemma add_quantity_ids productId change cart :
  List.map CartItem.productId (add_quantity productId change cart)
  = List.map CartItem.productId cart.
Proof.
  induction cart as [|item rest IH]; simpl; [reflexivity|].
  destruct (same_product productId item); simpl; [reflexivity|by rewrite IH].
Qed.

(** The change reaches the item that [find] returns, and only that item. *)
Lemma add_quantity_found productId change cart item :
  List.find (same_product productId) cart = Some item ->
  cartCount (add_quantity productId change cart) = cartCount cart + change
  /\ forall P : CartItem.t -> Prop,
       Forall P cart ->
       P (CartItem.mk (CartItem.productId item) (CartItem.productName item)
            (CartItem.price item) (CartItem.quantity item + change)) ->
       Forall P (add_quantity productId change cart).
Proof.
  induction cart as [|x rest IH]; simpl; [discriminate|].
  destruct (same_product productId x) eqn:Hx.
  - intros H. inversion H; subst x. split.
    + rewrite !cartCount_cons. simpl. lia.
    + intros P HF HP. inversion HF; subst. by constructor.
  - intros H. destruct (IH H) as (Hc & HP). split.
    + rewrite !cartCount_cons, Hc. lia.
    + intros P HF HPi. inversion HF; subst. constructor; [done|by apply HP].
Qed.

Lemma find_none_absent productId cart :
  List.find (same_product productId) cart = None ->
  ~ In productId (List.map CartItem.productId cart)
  /\ removeFromCart productId cart = cart.
Proof.
  unfold removeFromCart.
  induction cart as [|x rest IH]; simpl; [auto|].
  destruct (same_product productId x) eqn:Hx; [discriminate|].
  intros H. destruct (IH H) as [Hnot Hrem]. simpl. split.
  - intros [Heq|Hin]; [|done].
    unfold same_product in Hx. apply String.eqb_neq in Hx. congruence.
  - by rewrite Hrem.
Qed.

Lemma removeFromCart_add_quantity productId change cart :
  removeFromCart productId (add_quantity productId change cart)
  = removeFromCart productId cart.
Proof.
  unfold removeFromCart.
  induction cart as [|x rest IH]; simpl; [reflexivity|].
  destruct (same_product productId x) eqn:Hx; simpl.
  - unfold same_product in *. simpl. by rewrite Hx.
  - by rewrite Hx, IH.
Qed.

Lemma removeFromCart_ok productId cart :
  cart_ok cart -> cart_ok (removeFromCart productId cart).
Proof.
  unfold removeFromCart. intros [Hnd Hq]. split.
  - clear Hq. induction cart as [|x rest IH]; simpl; [constructor|].
    inversion Hnd as [|y ys Hnot Hnd']; subst.
    destruct (negb (same_product productId x)); simpl; [|by apply IH].
    constructor; [|by apply IH].
    intros Hin. apply Hnot. apply in_map_iff in Hin as (z & Hz & Hin).
    apply filter_In in Hin as [Hin _]. apply in_map_iff. by exists z.
  - clear Hnd. induction Hq as [|x rest Hx _ IH]; simpl; [constructor|].
    destruct (negb (same_product productId x)); [by constructor|exact IH].
Qed.

(** X16. The cart keeps one entry per product and at least one unit per
    entry: adding a product, changing a quantity by any amount and removing
    a product all preserve this. *)
Theorem cart_operations_keep_cart_ok currentUser productId productName price
    change cart :
  cart_ok cart ->
  cart_ok (addToCart currentUser productId productName price cart)
  /\ cart_ok (updateQuantity productId change cart)
  /\ cart_ok (removeFromCart productId cart).
Proof.
  intros Hok. pose proof Hok as [Hnd Hq]. split; [|split].
  - unfold addToCart. destruct currentUser as [u|]; [|exact Hok].
    destruct (List.find (same_product productId) cart) as [item|] eqn:Hf.
    + split; [by rewrite add_quantity_ids|].
      destruct (add_quantity_found _ 1 _ _ Hf) as (_ & HP).
      apply HP; [exact Hq|]. simpl.
      apply List.find_some in Hf as [Hin _].
      rewrite Forall_forall in Hq. apply list_elem_of_In, Hq in Hin. lia.
    + apply find_none_absent in Hf as [Hnot _]. split.
      * rewrite List.map_app. simpl. apply List.NoDup_app; repeat split.
        -- exact Hnd.
        -- constructor; [intros []|constructor].
        -- intros a Ha [<-|[]]. done.
      * apply Forall_app. split; [exact Hq|]. constructor; [simpl; lia|constructor].
  - unfold updateQuantity.
    destruct (List.find (same_product productId) cart) as [item|] eqn:Hf;
      [|exact Hok].
    destruct (CartItem.quantity item + change <=? 0) eqn:Hle.
    + rewrite removeFromCart_add_quantity. by apply removeFromCart_ok.
    + apply Z.leb_gt in Hle. split; [by rewrite add_quantity_ids|].
      destruct (add_quantity_found _ change _ _ Hf) as (_ & HP).
      apply HP; [exact Hq|]. simpl. lia.
  - by apply removeFromCart_ok.
Qed.

Lemma cart_operations_keep_cart_ok_witness :
  cart_ok (updateQuantity "p1" (-5)
             (addToCart (Some 50%N) "p2" "Eggs" (10 # 1)
                (addToCart (Some 50%N) "p1" "Milk" (80 # 1) []))).
Proof.
  assert (H0 : cart_ok []) by (split; constructor).
  destruct (cart_operations_keep_cart_ok (Some 50%N) "p1" "Milk" (80 # 1) 0 []
              H0) as (H1 & _ & _).
  destruct (cart_operations_keep_cart_ok (Some 50%N) "p2" "Eggs" (10 # 1) 0 _
              H1) as (H2 & _ & _).
  destruct (cart_operations_keep_cart_ok None "p1" "" 0%Q (-5) _ H2)
    as (_ & H3 & _).
  exact H3.
Defined.

Lemma find_add_quantity productId change cart item :
  List.find (same_product productId) cart = Some item ->
  List.find (same_product productId) (add_quantity productId change cart)
  = Some (CartItem.mk (CartItem.productId item) (CartItem.productName item)
            (CartItem.price item) (CartItem.quantity item + change)).
Proof.
  induction cart as [|x rest IH]; simpl; [discriminate|].
  destruct (same_product productId x) eqn:Hx; simpl.
  - intros H. inversion H; subst. unfold same_product in *. simpl. by rewrite Hx.
  - intros H. rewrite Hx. by apply IH.
Qed.

Lemma find_app_new productId cart item :
  List.find (same_product productId) cart = None ->
  same_product productId item = true ->
  List.find (same_product productId) (cart ++ [item]) = Some item.
Proof.
  intros Hf Hi. induction cart as [|x rest IH]; simpl in *.
  - by rewrite Hi.
  - destruct (same_product productId x); [discriminate|]. by apply IH.
Qed.

(** X17. For a logged-in user, [addToCart] raises the number of units in the
    cart by exactly one; the entry that the cart then has for the product
    is the entry it had, with one unit more and with the name and the price
    it had (the name and the price of the call are ignored), or a new entry
    with one unit and the name and the price of the call when it had none;
    without a user the cart is untouched. *)
Theorem addToCart_adds_one_unit user productId productName price cart :
  cartCount (addToCart (Some user) productId productName price cart)
  = cartCount cart + 1
  /\ List.find (same_product productId)
       (addToCart (Some user) productId productName price cart)
     = Some match List.find (same_product productId) cart with
            | Some item =>
                CartItem.mk (CartItem.productId item) (CartItem.productName item)
                  (CartItem.price item) (CartItem.quantity item + 1)
            | None => CartItem.mk productId productName price 1
            end
  /\ addToCart None productId productName price cart = cart.
Proof.
  unfold addToCart.
  destruct (List.find (same_product productId) cart) as [item|] eqn:Hf.
  - destruct (add_quantity_found _ 1 _ _ Hf) as (Hc & _).
    split; [exact Hc|]. split; [|reflexivity]. by apply find_add_quantity.
  - split; [|split; [|reflexivity]].
    + rewrite cartCount_app. unfold cartCount at 2. simpl. lia.
    + apply find_app_new; [exact Hf|]. apply String.eqb_refl.
Qed.

Lemma remove_one_unit item :
  CartItem.mk (CartItem.productId item) (CartItem.productName item)
    (CartItem.price item) (CartItem.quantity item + 1 + -1) = item.
Proof. destruct item. simpl. f_equal. lia. Qed.

Lemma add_quantity_back productId cart :
  add_quantity productId (-1) (add_quantity productId 1 cart) = cart.
Proof.
  induction cart as [|x rest IH]; simpl; [reflexivity|].
  destruct (same_product productId x) eqn:Hx; simpl.
  - unfold same_product in *. simpl. rewrite Hx. f_equal.
    apply (remove_one_unit x).
  - by rewrite Hx, IH.
Qed.

(** X18. An addition can be undone.  In a cart whose entries have at least
    one unit each, adding a product and then lowering its quantity by one
    gives back the cart as it was, whether the product was in the cart or
    not; and removing the product after adding it gives the same cart as
    removing it without adding. *)
Theorem addToCart_can_be_undone user productId productName price cart :
  Forall (fun item => 1 <= CartItem.quantity item) cart ->
  updateQuantity productId (-1)
    (addToCart (Some user) productId productName price cart) = cart
  /\ removeFromCart productId
       (addToCart (Some user) productId productName price cart)
     = removeFromCart productId cart.
Proof.
  intros Hq. unfold addToCart.
  destruct (List.find (same_product productId) cart) as [item|] eqn:Hf.
  - split; [|apply removeFromCart_add_quantity].
    unfold updateQuantity. rewrite (find_add_quantity _ 1 _ _ Hf). simpl.
    apply List.find_some in Hf as [Hin _].
    rewrite Forall_forall in Hq. apply list_elem_of_In, Hq in Hin.
    destruct (CartItem.quantity item + 1 + -1 <=? 0) eqn:Hle;
      [apply Z.leb_le in Hle; lia|].
    apply add_quantity_back.
  - assert (Hnew : same_product productId
                     (CartItem.mk productId productName price 1) = true)
      by apply String.eqb_refl.
    pose proof (find_none_absent _ _ Hf) as [_ Hrem].
    assert (Hremove : removeFromCart productId
                        (cart ++ [CartItem.mk productId productName price 1])
                      = removeFromCart productId cart).
    { unfold removeFromCart. rewrite List.filter_app. simpl.
      rewrite Hnew. simpl. apply app_nil_r. }
    split; [|exact Hremove].
    unfold updateQuantity. rewrite (find_app_new _ _ _ Hf Hnew). simpl.
    rewrite removeFromCart_add_quantity, Hremove. exact Hrem.
Qed.

Lemma addToCart_can_be_undone_witness :
  updateQuantity "p1" (-1)
    (addToCart (Some 50%N) "p1" "Milk" (80 # 1)
       [CartItem.mk "p1" "Milk" (80 # 1) 2; CartItem.mk "p2" "Eggs" (10 # 1) 1])
  = [CartItem.mk "p1" "Milk" (80 # 1) 2; CartItem.mk "p2" "Eggs" (10 # 1) 1].
Proof.
  apply (addToCart_can_be_undone 50%N "p1" "Milk" (80 # 1)
           [CartItem.mk "p1" "Milk" (80 # 1) 2;
            CartItem.mk "p2" "Eggs" (10 # 1) 1]).
  repeat constructor; simpl; lia.
Defined.

(** ** Paging of the product list *)

(** [Math_ceil_div a b] is the least integer not below [a / b]. *)
Lemma Math_ceil_div_spec a b p :
  0 < b -> p <= Math_ceil_div a b <-> (p - 1) * b < a.
Proof.
  intros Hb. unfold Math_ceil_div.
  pose proof (Z.div_mod (- a) b ltac:(lia)) as Hdm.
  pose proof (Z.mod_pos_bound (- a) b Hb) as Hmod.
  split; intros H; nia.
Qed.

Lemma page_nonempty {A : Type} (k n : nat) (m : list A) :
  (1 <= k)%nat -> firstn k (skipn n m) <> [] <-> (n < length m)%nat.
Proof.
  intros Hk. split.
  - intros Hne. destruct (Nat.lt_ge_cases n (length m)) as [Hlt|Hge]; [exact Hlt|].
    exfalso. apply Hne. rewrite skipn_all2 by exact Hge. apply firstn_nil.
  - intros Hlt Hnil.
    assert (Hlen : length (firstn k (skipn n m)) = 0%nat) by (by rewrite Hnil).
    rewrite length_firstn, length_skipn in Hlen. lia.
Qed.

Lemma validate_paging_some page limit p l :
  validate_paging page limit = Some (p, l) ->
  p = default 1 page /\ l = default 12 limit /\ 1 <= p /\ 1 <= l <= 50.
Proof.
  unfold validate_paging. intros H.
  destruct page as [pg|], limit as [lm|]; simpl in *;
    repeat match type of H with
           | (if ?c then _ else _) = _ => destruct c eqn:?; [|discriminate]
           end;
    inversion H; subst;
    repeat match goal with
           | Hb : _ && _ = true |- _ => apply andb_prop in Hb as [? ?]
           | Hb : (_ <=? _) = true |- _ => apply Z.leb_le in Hb
           end; repeat split; lia.
Qed.

Lemma page_products_eq {A : Type} (i : nat) (limit : Z) (matching : list A) :
  1 <= limit <= 50 ->
  page_products (Z.of_nat (S i)) limit matching
  = firstn (Z.to_nat limit) (skipn (i * Z.to_nat limit) matching).
Proof.
  intros Hl.
  assert (Hv : validate_paging (Some (Z.of_nat (S i))) (Some limit)
               = Some (Z.of_nat (S i), limit)).
  { unfold validate_paging. cbv zeta.
    rewrite (proj2 (Z.leb_le 1 (Z.of_nat (S i)))) by lia.
    rewrite (proj2 (Z.leb_le 1 limit)) by lia.
    rewrite (proj2 (Z.leb_le limit 50)) by lia. reflexivity. }
  unfold page_products, listProducts. rewrite Hv.
  do 2 f_equal. lia.
Qed.

(** X19. A page of the product list: it holds at most [limit] products; it
    is non-empty exactly for the pages up to [totalPages]; [hasNext] says
    exactly whether the next page holds a product, and [hasPrev] whether
    there is a page before; [totalProducts] counts all matching products
    and there are no pages exactly when nothing matches. *)
Theorem listProducts_paging {A : Type} page limit (matching : list A) products pg :
  listProducts page limit matching = Ok (products, pg) ->
  exists p l,
    p = default 1 page /\ l = default 12 limit /\ 1 <= p /\ 1 <= l <= 50
    /\ Pagination.currentPage pg = p
    /\ Pagination.totalProducts pg = Z.of_nat (length matching)
    /\ (length products <= Z.to_nat l)%nat
    /\ (products <> [] <-> p <= Pagination.totalPages pg)
    /\ (Pagination.hasNext pg = true <-> page_products (p + 1) l matching <> [])
    /\ (Pagination.hasPrev pg = true <-> 1 < p)
    /\ (Pagination.totalPages pg = 0 <-> matching = []).
Proof.
  unfold listProducts. intros H.
  destruct (validate_paging page limit) as [[p l]|] eqn:Hv; [|discriminate].
  apply validate_paging_some in Hv as (Hp & Hl & Hp1 & Hl1).
  inversion H; subst products pg. clear H. simpl.
  exists p, l. split; [exact Hp|]. split; [exact Hl|].
  split; [exact Hp1|]. split; [exact Hl1|].
  split; [reflexivity|]. split; [reflexivity|].
  split; [rewrite length_firstn; lia|].
  split; [|split; [|split]].
  - rewrite page_nonempty by lia.
    rewrite Math_ceil_div_spec by lia. split; intros Hlt; nia.
  - rewrite Z.ltb_lt.
    replace (p + 1) with (Z.of_nat (S (Z.to_nat p))) by lia.
    rewrite page_products_eq by exact Hl1.
    rewrite page_nonempty by lia.
    assert (Hnext : p < Math_ceil_div (Z.of_nat (length matching)) l
                    <-> p + 1 <= Math_ceil_div (Z.of_nat (length matching)) l)
      by lia.
    rewrite Hnext, Math_ceil_div_spec by lia. split; intros Hlt; nia.
  - apply Z.ltb_lt.
  - pose proof (Math_ceil_div_spec (Z.of_nat (length matching)) l 1 ltac:(lia))
      as H1.
    pose proof (Math_ceil_div_spec (Z.of_nat (length matching)) l 0 ltac:(lia))
      as H0.
    split.
    + intros Hz. destruct matching; [reflexivity|]. simpl length in *. lia.
    + intros ->. simpl in *. lia.
Qed.

Lemma listProducts_paging_witness :
  exists products pg,
    listProducts (Some 2) (Some 3) [1; 2; 3; 4; 5; 6; 7] = Ok (products, pg)
    /\ (length products <= 3)%nat
    /\ (Pagination.hasNext pg = true
        <-> page_products 3 3 [1; 2; 3; 4; 5; 6; 7] <> []).
Proof.
  destruct (listProducts_paging (Some 2) (Some 3) [1; 2; 3; 4; 5; 6; 7] _ _ eq_refl)
    as (p & l & Hp & Hl & _ & _ & _ & _ & Hlen & _ & Hnext & _).
  simpl in Hp, Hl. subst p l.
  eexists _, _. split; [reflexivity|]. split; [exact Hlen|exact Hnext].
Defined.





(** ** The order number of the save hook *)

(** Linear arithmetic with division and remainder by constants. *)
Ltac euclid := zify; Z.to_euclidean_division_equations; lia.

Lemma digit_inj a b : (a < 10)%N -> (b < 10)%N -> digit a = digit b -> a = b.
Proof.
  unfold digit. intros Ha Hb H.
  apply (f_equal N_of_ascii) in H.
  rewrite !N_ascii_embedding in H by lia. lia.
Qed.

Lemma digits_lsd_six fuel n :
  (100000 <= n)%N -> (6 <= fuel)%nat ->
  firstn 6 (digits_lsd fuel n)
  = [digit (n mod 10); digit (n / 10 mod 10); digit (n / 10 / 10 mod 10);
     digit (n / 10 / 10 / 10 mod 10); digit (n / 10 / 10 / 10 / 10 mod 10);
     digit (n / 10 / 10 / 10 / 10 / 10 mod 10)]%N.
Proof.
  intros Hn Hf.
  do 6 (destruct fuel as [|fuel]; [lia|]). cbn [digits_lsd].
  assert (H0 : (n <? 10)%N = false) by (apply N.ltb_ge; euclid).
  assert (H1 : (n / 10 <? 10)%N = false) by (apply N.ltb_ge; euclid).
  assert (H2 : (n / 10 / 10 <? 10)%N = false) by (apply N.ltb_ge; euclid).
  assert (H3 : (n / 10 / 10 / 10 <? 10)%N = false) by (apply N.ltb_ge; euclid).
  assert (H4 : (n / 10 / 10 / 10 / 10 <? 10)%N = false) by (apply N.ltb_ge; euclid).
  rewrite H0, H1, H2, H3, H4. reflexivity.
Qed.

Lemma toString_fuel n m :
  (m <= n)%N -> (N.to_nat (N.log2 m) < S (N.to_nat (N.log2 n)))%nat.
Proof. intros H. apply N.log2_le_mono in H. lia. Qed.

Lemma slice_last_six n :
  (100000 <= n)%N ->
  slice_last 6 (toString n)
  = [digit (n / 10 / 10 / 10 / 10 / 10 mod 10); digit (n / 10 / 10 / 10 / 10 mod 10);
     digit (n / 10 / 10 / 10 mod 10); digit (n / 10 / 10 mod 10);
     digit (n / 10 mod 10); digit (n mod 10)]%N.
Proof.
  intros Hn. unfold slice_last, toString. rewrite rev_involutive.
  rewrite digits_lsd_six; [reflexivity|exact Hn|].
  pose proof (toString_fuel n 100000 Hn) as Hf.
  change (N.to_nat (N.log2 100000)) with 16%nat in Hf. lia.
Qed.

Lemma padStart_three r :
  (r < 1000)%N ->
  padStart 3 "0"%char (toString r)
  = [digit (r / 10 / 10 mod 10); digit (r / 10 mod 10); digit (r mod 10)]%N.
Proof.
  intros Hr. unfold padStart, toString.
  destruct (N.lt_ge_cases r 10) as [H10|H10].
  - cbn [digits_lsd]. rewrite (proj2 (N.ltb_lt r 10) H10). simpl.
    replace (r / 10 / 10 mod 10)%N with 0%N by euclid.
    replace (r / 10 mod 10)%N with 0%N by euclid.
    replace (r mod 10)%N with r by euclid. reflexivity.
  - pose proof (toString_fuel r 10 H10) as Hf.
    change (N.to_nat (N.log2 10)) with 3%nat in Hf.
    destruct (N.to_nat (N.log2 r)) as [|[|[|f]]]; try lia.
    cbn [digits_lsd]. rewrite (proj2 (N.ltb_ge r 10) H10).
    destruct (N.lt_ge_cases r 100) as [H100|H100].
    + rewrite (proj2 (N.ltb_lt (r / 10) 10)) by euclid. simpl.
      replace (r / 10 / 10 mod 10)%N with 0%N by euclid. reflexivity.
    + rewrite (proj2 (N.ltb_ge (r / 10) 10)) by euclid.
      rewrite (proj2 (N.ltb_lt (r / 10 / 10) 10)) by euclid. reflexivity.
Qed.

Lemma string_of_list_ascii_inj l1 l2 :
  string_of_list_ascii l1 = string_of_list_ascii l2 -> l1 = l2.
Proof.
  intros H. apply (f_equal list_ascii_of_string) in H.
  by rewrite !list_ascii_of_string_of_list_ascii in H.
Qed.

(** Agreement modulo [10 * m] is agreement of the last digit and of the
    rest modulo [m]. *)
Lemma mod10_split x y m :
  (m <> 0)%N ->
  (x mod (10 * m) = y mod (10 * m)
   <-> x mod 10 = y mod 10 /\ x / 10 mod m = y / 10 mod m)%N.
Proof.
  intros Hm. rewrite !N.Div0.mod_mul_r.
  pose proof (N.mod_lt x 10 ltac:(lia)) as Hx.
  pose proof (N.mod_lt y 10 ltac:(lia)) as Hy.
  generalize dependent (x mod 10)%N. generalize dependent (y mod 10)%N.
  generalize (x / 10 mod m)%N (y / 10 mod m)%N. intros A B b Hb a Ha.
  split; [intros H1; split; lia|intros [-> ->]; reflexivity].
Qed.

Lemma six_digits x y :
  (x mod 1000000 = y mod 1000000
   <-> x mod 10 = y mod 10
       /\ x / 10 mod 10 = y / 10 mod 10
       /\ x / 10 / 10 mod 10 = y / 10 / 10 mod 10
       /\ x / 10 / 10 / 10 mod 10 = y / 10 / 10 / 10 mod 10
       /\ x / 10 / 10 / 10 / 10 mod 10 = y / 10 / 10 / 10 / 10 mod 10
       /\ x / 10 / 10 / 10 / 10 / 10 mod 10
          = y / 10 / 10 / 10 / 10 / 10 mod 10)%N.
Proof.
  change 1000000%N with (10 * 100000)%N. rewrite mod10_split by discriminate.
  change 100000%N with (10 * 10000)%N. rewrite mod10_split by discriminate.
  change 10000%N with (10 * 1000)%N. rewrite mod10_split by discriminate.
  change 1000%N with (10 * 100)%N. rewrite mod10_split by discriminate.
  change 100%N with (10 * 10)%N at 1 2. rewrite mod10_split by discriminate.
  reflexivity.
Qed.

Lemma three_digits x y :
  (x < 1000)%N -> (y < 1000)%N ->
  (x / 10 / 10 mod 10 = y / 10 / 10 mod 10)%N ->
  (x / 10 mod 10 = y / 10 mod 10)%N ->
  (x mod 10 = y mod 10)%N ->
  x = y.
Proof.
  intros Hx Hy H2 H1 H0.
  assert (H : (x mod 1000 = y mod 1000)%N).
  { change 1000%N with (10 * 100)%N. apply mod10_split; [discriminate|].
    split; [exact H0|].
    change 100%N with (10 * 10)%N. apply mod10_split; [discriminate|]. auto. }
  by rewrite !N.mod_small in H.
Qed.

(** X21. For clock values of at least six digits and draws below 1000, the
    generated order number has 14 characters, and two generated numbers are
    equal exactly when the clock values agree modulo 1,000,000 milliseconds
    and the draws are equal; an order that already has a number keeps it. *)
Theorem orderNumber_collisions now now' random random' :
  (100000 <= now)%N -> (100000 <= now')%N ->
  (random < 1000)%N -> (random' < 1000)%N ->
  String.length (generate_orderNumber now random) = 14%nat
  /\ (generate_orderNumber now random = generate_orderNumber now' random'
      <-> (now mod 1000000 = now' mod 1000000)%N /\ random = random')
  /\ (forall number, number <> EmptyString ->
        Order_pre_save number now random = number).
Proof.
  intros Hn Hn' Hr Hr'. unfold generate_orderNumber.
  rewrite !slice_last_six, !padStart_three by assumption.
  split; [reflexivity|]. split.
  - rewrite six_digits. split.
    + intros H. apply string_of_list_ascii_inj in H. simpl in H.
      inversion H as [[H5 H4 H3 H2 H1 H0 R2 R1 R0]].
      apply digit_inj in H5, H4, H3, H2, H1, H0, R2, R1, R0;
        try (apply N.mod_lt; lia).
      split; [auto 10|]. by apply three_digits.
    + intros [(E0 & E1 & E2 & E3 & E4 & E5) ->].
      by rewrite E0, E1, E2, E3, E4, E5.
  - intros number Hne. unfold Order_pre_save.
    by destruct number.
Qed.

Lemma orderNumber_collisions_witness :
  generate_orderNumber 1730505600123 7 = "ORD-600123-007"%string
  /\ generate_orderNumber 1730505600123 7 = generate_orderNumber 1730506600123 7.
Proof.
  split; [vm_compute; reflexivity|].
  apply (orderNumber_collisions 1730505600123 1730506600123 7 7); try lia.
  split; reflexivity.
Defined.

(** ** Which response an order request gets *)

Lemma validate_items_app (ps : gmap N Product.t) good :
  Forall (orderable ps) good ->
  forall rest acc tot,
    exists lines tot',
      validate_items ps (good ++ rest) acc tot
      = validate_items ps rest (acc ++ lines) tot'.
Proof.
  induction 1 as [|item good [line Hline] _ IH]; intros rest acc tot; simpl.
  - exists [], tot. by rewrite app_nil_r.
  - rewrite Hline.
    destruct (IH rest (acc ++ [line]) (tot + itemTotal line)%Q)
      as (lines & tot' & ->).
    exists (line :: lines), tot'. by rewrite <- app_assoc.
Qed.

(** X23. For a request that passes the validation chain: if some item fails
    the product checks, the response is the error of the first such item;
    if every item passes them, the response is the server error of the
    [catch] block, since [save] refuses the document; either way nothing
    is written. *)
Theorem createOrder_outcome user fresh req req' st :
  validate_order req = Some req' ->
  (forall good bad rest e,
     OrderRequest.items req = good ++ bad :: rest ->
     Forall (orderable (products st)) good ->
     check_item (products st) bad = Err e ->
     createOrder user fresh req st = (Err e, st))
  /\ (Forall (orderable (products st)) (OrderRequest.items req) ->
      createOrder user fresh req st = (Err ServerError, st)).
Proof.
  intros Hv. pose proof (validate_order_items _ _ Hv) as (Hitems & _ & _).
  unfold createOrder. rewrite Hv, Hitems. split.
  - intros good bad rest e -> Hgood Hbad.
    destruct (validate_items_app _ _ Hgood (bad :: rest) [] 0%Q)
      as (lines & tot' & ->).
    simpl. by rewrite Hbad.
  - intros Hall.
    destruct (validate_items_app _ _ Hall [] [] 0%Q) as (lines & tot' & Heq).
    rewrite app_nil_r in Heq. by rewrite Heq.
Qed.

Lemma createOrder_outcome_witness :
  createOrder 50%N fresh_a
    (OrderRequest.mk [ReqItem.mk 1%N 3; ReqItem.mk 1%N 11; ReqItem.mk 9%N 1]
       "mpesa" sample_address None) (sample_store 10)
  = (Err (InsufficientStock 1%N), sample_store 10)
  /\ createOrder 50%N fresh_a (sample_request [3; 2]) (sample_store 10)
     = (Err ServerError, sample_store 10).
Proof.
  destruct (createOrder_outcome 50%N fresh_a
              (OrderRequest.mk [ReqItem.mk 1%N 3; ReqItem.mk 1%N 11; ReqItem.mk 9%N 1]
                 "mpesa" sample_address None) _ (sample_store 10) eq_refl)
    as [Hfail _].
  destruct (createOrder_outcome 50%N fresh_a (sample_request [3; 2]) _
              (sample_store 10) eq_refl) as [_ Hsave].
  split.
  - apply (Hfail [ReqItem.mk 1%N 3] (ReqItem.mk 1%N 11) [ReqItem.mk 9%N 1]).
    + reflexivity.
    + constructor; [|constructor]. eexists. vm_compute. reflexivity.
    + vm_compute. reflexivity.
  - apply Hsave. repeat constructor; eexists; vm_compute; reflexivity.
Defined.
